(** * pypreprocess, examples/realign_demos.py

    A shallow embedding of the motion-correction demo script: the four
    subject factories (generators of [SubjectData] records) and the demo
    runner that drives fit, transform and the motion plots over them.

    The Python builtins and the [posixpath] functions the script calls are
    embedded from their CPython 2.7 definitions; the motion-correction
    engine, the plotting routine and the dataset fetchers are collaborators
    of the script and appear as parameters. *)

From Stdlib Require Import String Ascii List ZArith Lia Bool Arith.
From Stdlib Require Import Permutation DecimalString.
From Stdlib Require DecimalPos DecimalZ.
Import ListNotations.
Local Open Scope list_scope.
Local Open Scope string_scope.

(** ** Python strings *)

Module Py.

(** ["%i" % n] for an integer [n]. *)
Definition format_i (n : Z) : string :=
  NilZero.string_of_int (Z.to_int n).

(** [s.startswith(pre)]. *)
Definition startswith (pre s : string) : bool := String.prefix pre s.

(** [needle in hay]: the substring test. *)
Fixpoint str_in (needle hay : string) : bool :=
  if startswith needle hay then true
  else match hay with
       | EmptyString => false
       | String _ hay' => str_in needle hay'
       end.

(** [s.rfind(c) + 1]: one past the last occurrence of [c], 0 when absent. *)
Fixpoint rfind_succ (c : ascii) (s : string) : nat :=
  match s with
  | EmptyString => 0
  | String a s' =>
      match rfind_succ c s' with
      | 0 => if Ascii.eqb a c then 1 else 0
      | S k => S (S k)
      end
  end.

(** [s[:i]]. *)
Fixpoint slice_to (i : nat) (s : string) : string :=
  match i, s with
  | S k, String a s' => String a (slice_to k s')
  | _, _ => EmptyString
  end.

(** [s[i:]]. *)
Fixpoint slice_from (i : nat) (s : string) : string :=
  match i, s with
  | S k, String _ s' => slice_from k s'
  | _, _ => s
  end.

(** [s.rstrip(c)] for a one-character [c]. *)
Fixpoint rstrip (c : ascii) (s : string) : string :=
  match s with
  | EmptyString => EmptyString
  | String a s' =>
      match rstrip c s' with
      | EmptyString => if Ascii.eqb a c then EmptyString else String a EmptyString
      | r => String a r
      end
  end.

(** [s * n]. *)
Fixpoint str_mul (s : string) (n : nat) : string :=
  match n with
  | 0 => EmptyString
  | S k => s ++ str_mul s k
  end.

(** [s.endswith(suf)]. *)
Definition endswith (suf s : string) : bool :=
  if Nat.leb (String.length suf) (String.length s)
  then String.eqb (slice_from (String.length s - String.length suf) s) suf
  else false.

End Py.

(** ** posixpath *)

Module posixpath.
Import Py.

Definition sep : ascii := "/"%char.

(** [i = p.rfind('/') + 1; head = p[:i];
    if head and head != '/'*len(head): head = head.rstrip('/')] *)
Definition dirname (p : string) : string :=
  let i := rfind_succ sep p in
  let head := slice_to i p in
  if negb (String.eqb head "")
     && negb (String.eqb head (str_mul "/" (String.length head)))
  then rstrip sep head
  else head.

(** [i = p.rfind('/') + 1; return p[i:]] *)
Definition basename (p : string) : string :=
  slice_from (rfind_succ sep p) p.

(** One round of the loop of [join]. *)
Definition join_step (path b : string) : string :=
  if startswith "/" b then b
  else if String.eqb path "" || endswith "/" path then path ++ b
  else path ++ "/" ++ b.

(** [join(a, *p)]. *)
Definition join (a : string) (p : list string) : string :=
  fold_left join_step p a.

End posixpath.

(** ** Data model *)

(** [func] is a path or an ordered list of paths. *)
Inductive func_t : Type :=
| FuncPath (path : string)
| FuncList (paths : list string).

(** [SubjectData = namedtuple('SubjectData', 'subject_id func output_dir')] *)
Record SubjectData : Type := mkSubjectData {
  subject_id : string;
  func : func_t;
  output_dir : string
}.

(** Exceptions: the two the script can raise itself, and whatever a
    collaborator raises, kept opaque. *)
Inductive exn : Type :=
| AssertionError
| IndexError
| Raised (what : string).

(** A generator run to its end: the values it yields, then exhaustion or an
    exception. The consumer sees the values yielded before the exception. *)
Inductive generator (A : Type) : Type :=
| Exhausted
| Yield (a : A) (rest : generator A)
| Raises (e : exn).
Arguments Exhausted {A}.
Arguments Yield {A} a rest.
Arguments Raises {A} e.

Fixpoint yielded {A : Type} (g : generator A) : list A :=
  match g with
  | Yield a rest => a :: yielded rest
  | _ => []
  end.

Fixpoint ending {A : Type} (g : generator A) : option exn :=
  match g with
  | Exhausted => None
  | Yield _ rest => ending rest
  | Raises e => Some e
  end.

(** Iteration over [set(l)]: every element of [l] once, in an order the
    language leaves open. *)
Class SetOrder : Type := {
  set_iter : list string -> list string;
  set_iter_NoDup : forall l, NoDup (set_iter l);
  set_iter_In : forall l x, In x (set_iter l) <-> In x l
}.

(** Two orders: by last occurrence, and the reverse of it. *)
#[refine] Instance last_seen : SetOrder :=
  {| set_iter := nodup string_dec |}.
Proof.
  - intro l. apply NoDup_nodup.
  - intros l x. apply nodup_In.
Defined.

#[refine] Instance last_seen_rev : SetOrder :=
  {| set_iter := fun l => rev (nodup string_dec l) |}.
Proof.
  - intro l. apply NoDup_rev, NoDup_nodup.
  - intros l x. rewrite <- in_rev. apply nodup_In.
Defined.

(** ** The subject factories *)

Module demo_nyu_rest.
Import Py posixpath.

(** ["session%i" % session] *)
Definition session_marker (session : Z) : string :=
  "session" ++ format_i session.

(** [[x for x in nyu_data.func if "session%i" % session in x]] *)
Definition session_func (nyu_func : list string) (session : Z) : list string :=
  filter (fun x => str_in (session_marker session) x) nyu_func.

(** [os.path.basename(os.path.dirname(os.path.dirname(x)))] *)
Definition subject_of (x : string) : string :=
  basename (dirname (dirname x)).

(** The list the set is built from. *)
Definition subject_ids (nyu_func : list string) (session : Z) : list string :=
  map subject_of (session_func nyu_func session).

(** [[x for x in session_func if subject_id in x]] *)
Definition matching (session_func : list string) (subject_id : string)
  : list string :=
  filter (fun x => str_in subject_id x) session_func.

(** The body of the [for subject_id in set(...)] loop. *)
Fixpoint subject_loop (session_func : list string) (output_dir : string)
    (session : Z) (ids : list string) : generator SubjectData :=
  match ids with
  | [] => Exhausted
  | subject_id :: ids' =>
      let func := matching session_func subject_id in
      if Nat.eqb (List.length func) 1 then
        match func with
        | func0 :: _ =>
            Yield (mkSubjectData subject_id (FuncPath func0)
                     (join output_dir [session_marker session; subject_id]))
                  (subject_loop session_func output_dir session ids')
        | [] => Raises IndexError
        end
      else Raises AssertionError
  end.

Definition subject_factory {O : SetOrder} (nyu_func : list string)
    (output_dir : string) (session : Z) : generator SubjectData :=
  subject_loop (session_func nyu_func session) output_dir session
    (set_iter (subject_ids nyu_func session)).

End demo_nyu_rest.

Module demo_fsl_feeds.
Import posixpath.

Definition subject_factory (fsl_func : func_t) (output_dir : string)
  : generator SubjectData :=
  let subject_id := "sub001" in
  Yield (mkSubjectData subject_id fsl_func (join output_dir [subject_id]))
        Exhausted.

End demo_fsl_feeds.

Module demo_spm_multimodal_fmri.
Import posixpath.

Definition subject_factory (func1 func2 : string) (output_dir : string)
  : generator SubjectData :=
  let subject_id := "sub001" in
  Yield (mkSubjectData subject_id (FuncList [func1; func2])
           (join output_dir [subject_id]))
        Exhausted.

End demo_spm_multimodal_fmri.

Module demo_spm_auditory.
Import posixpath.

Definition subject_factory (auditory_func : string) (output_dir : string)
  : generator SubjectData :=
  let subject_id := "sub001" in
  Yield (mkSubjectData subject_id (FuncList [auditory_func])
           (join output_dir [subject_id]))
        Exhausted.

End demo_spm_auditory.

(** ** The demo runner *)

(** [**spm_realign_kwargs] *)
Definition kwargs : Type := list (string * Z).

(** The calls the runner makes to the outside. *)
Inductive call : Type :=
| Print (line : string)
| MRIMotionCorrection (kw : kwargs)
| Fit (func : func_t)
| Transform (output_dir : string) (reslice concat : bool)
| Plot_spm_motion_parameters (rp_filename title : string)
| Show.

(** What the collaborators do: each call runs on the state [W] of the outside
    world (disk, figures) and returns or raises. [E] is the engine object;
    [mc_rp_filenames] reads its [_rp_filenames_] attribute. *)
Record collaborators (W E : Type) : Type := {
  mc_init : kwargs -> W -> W * (exn + E);
  mc_fit : E -> func_t -> W -> W * (exn + E);
  mc_transform : E -> string -> bool -> bool -> W -> W * (exn + E);
  mc_rp_filenames : E -> list string;
  plot_spm_motion_parameters : string -> string -> W -> W * (exn + unit);
  plt_show : W -> W * (exn + unit)
}.
Arguments mc_init {W E} c kw w.
Arguments mc_fit {W E} c e func w.
Arguments mc_transform {W E} c e output_dir reslice concat w.
Arguments mc_rp_filenames {W E} c e.
Arguments plot_spm_motion_parameters {W E} c rp_filename title w.
Arguments plt_show {W E} c w.

(** The state of a run: the world, and the calls made so far, oldest first. *)
Record state (W : Type) : Type := mkState {
  world : W;
  calls : list call
}.
Arguments mkState {W} world calls.
Arguments world {W} s.
Arguments calls {W} s.

(** Computations that log their calls and may raise. *)
Definition M (W A : Type) : Type := state W -> state W * (exn + A).

Definition ret {W A : Type} (a : A) : M W A := fun st => (st, inr a).

Definition raise {W A : Type} (e : exn) : M W A := fun st => (st, inl e).

Definition bind {W A B : Type} (m : M W A) (k : A -> M W B) : M W B :=
  fun st =>
    match m st with
    | (st', inr a) => k a st'
    | (st', inl e) => (st', inl e)
    end.

Declare Scope run_scope.
Delimit Scope run_scope with run.
Notation "x <- m ;; k" := (bind m (fun x => k))
  (at level 100, m at next level, right associativity) : run_scope.
Notation "m ;;; k" := (bind m (fun _ => k))
  (at level 100, right associativity) : run_scope.

(** One call to a collaborator: logged, then run on the world. *)
Definition invoke {W A : Type} (c : call) (f : W -> W * (exn + A)) : M W A :=
  fun st =>
    let (w, r) := f (world st) in
    (mkState w (calls st ++ [c]), r).

(** [print] writes a line and does not raise. *)
Definition print {W : Type} (line : string) : M W unit :=
  invoke (Print line) (fun w => (w, inr tt)).

(** [for a in l: body(a)] *)
Fixpoint for_list {W A : Type} (l : list A) (body : A -> M W unit) : M W unit :=
  match l with
  | [] => ret tt
  | a :: l' => (body a ;;; for_list l' body)%run
  end.

(** [for a in g: body(a)] over a generator. *)
Fixpoint for_gen {W A : Type} (g : generator A) (body : A -> M W unit)
  : M W unit :=
  match g with
  | Exhausted => ret tt
  | Yield a rest => (body a ;;; for_gen rest body)%run
  | Raises e => raise e
  end.

(** [zip(xrange(len(l)), l)] *)
Definition zip_xrange {A : Type} (l : list A) : list (nat * A) :=
  combine (seq 0 (List.length l)) l.

Definition tab : string := String (ascii_of_nat 9) EmptyString.

(** ["%sMotion correction for %s (%s)" % ('\t' * 2, subject_id, dataset_id)] *)
Definition banner (subject_id dataset_id : string) : string :=
  Py.str_mul tab 2 ++ "Motion correction for " ++ subject_id
    ++ " (" ++ dataset_id ++ ")".

(** ["Estimated motion for %s (session %i) of '%s'" %
     (subject_id, sess, dataset_id)] *)
Definition plot_title (subject_id : string) (sess : nat) (dataset_id : string)
  : string :=
  "Estimated motion for " ++ subject_id ++ " (session "
    ++ Py.format_i (Z.of_nat sess) ++ ") of '" ++ dataset_id ++ "'".

Section Runner.
Context {W E : Type}.
Variable C : collaborators W E.

(** The plotting loop over [zip(xrange(len(rp)), rp)]. *)
Definition plot_loop (subject_id dataset_id : string) (rp : list string)
  : M W unit :=
  for_list (zip_xrange rp)
    (fun p =>
       let rp_filename := snd p in
       let title := plot_title subject_id (fst p) dataset_id in
       invoke (Plot_spm_motion_parameters rp_filename title)
         (plot_spm_motion_parameters C rp_filename title)).

(** The body of the loop over subjects. *)
Definition subject_body (dataset_id : string) (spm_realign_kwargs : kwargs)
    (subject_data : SubjectData) : M W unit :=
  (print (banner (subject_id subject_data) dataset_id) ;;;
   mrimc <- invoke (MRIMotionCorrection spm_realign_kwargs)
              (mc_init C spm_realign_kwargs) ;;
   mrimc <- invoke (Fit (func subject_data))
              (mc_fit C mrimc (func subject_data)) ;;
   mrimc <- invoke (Transform (output_dir subject_data) true true)
              (mc_transform C mrimc (output_dir subject_data) true true) ;;
   plot_loop (subject_id subject_data) dataset_id (mc_rp_filenames C mrimc) ;;;
   invoke Show (plt_show C))%run.

Definition _demo_runner (subjects : generator SubjectData)
    (dataset_id : string) (spm_realign_kwargs : kwargs) : M W unit :=
  for_gen subjects (subject_body dataset_id spm_realign_kwargs).

(** The four demos, after the fetch. *)
Definition run_nyu_rest {O : SetOrder} (nyu_func : list string)
    (output_dir : string) : M W unit :=
  _demo_runner (demo_nyu_rest.subject_factory nyu_func output_dir 1)
    "NYU resting state" [].

Definition run_fsl_feeds (fsl_func : func_t) (output_dir : string)
  : M W unit :=
  _demo_runner (demo_fsl_feeds.subject_factory fsl_func output_dir)
    "FSL FEEDS" [].

Definition run_spm_multimodal_fmri (func1 func2 : string)
    (output_dir : string) : M W unit :=
  _demo_runner
    (demo_spm_multimodal_fmri.subject_factory func1 func2 output_dir)
    "SPM Multimodal fMRI faces vs scrambled" [("n_sessions", 2%Z)].

Definition run_spm_auditory (auditory_func : string) (output_dir : string)
  : M W unit :=
  _demo_runner (demo_spm_auditory.subject_factory auditory_func output_dir)
    "SPM single-subject Auditory" [].

End Runner.

(** ** Sample collaborators and listings *)

(** A small engine: [fit] takes the paths (and refuses an empty list),
    [transform] names one parameter file per path under the output directory
    (and refuses an empty directory name), the plot refuses a file whose
    name contains "corrupt". The world counts the figures drawn. *)
Definition toy : collaborators nat (list string) := {|
  mc_init := fun _ w => (w, inr []);
  mc_fit := fun _ f w =>
    match f with
    | FuncPath p => (w, inr [p])
    | FuncList [] => (w, inl (Raised "fit: no input"))
    | FuncList ps => (w, inr ps)
    end;
  mc_transform := fun e out _ _ w =>
    if String.eqb out "" then (w, inl (Raised "transform: no output_dir"))
    else (w, inr (map (fun p => posixpath.join out ["rp_" ++ posixpath.basename p]) e));
  mc_rp_filenames := fun e => e;
  plot_spm_motion_parameters := fun rp _ w =>
    if Py.str_in "corrupt" rp then (w, inl (Raised "plot: unreadable"))
    else (S w, inr tt);
  plt_show := fun w => (w, inr tt)
|}.

Definition start : state nat := mkState 0 [].

(** The listing of the spec's scenario, and one with the layout of the
    dataset (session / subject / func / file). *)
Definition scenario_listing : list string :=
  ["/d/session1/s1/f.nii"; "/d/session1/s2/f.nii"].

Definition dataset_listing : list string :=
  ["/d/session1/s1/func/f.nii"; "/d/session1/s2/func/f.nii"].

(** ** Vocabulary of the statements *)

(** The record the loop of [demo_nyu_rest.subject_factory] builds for an
    identifier: its first matching path, and the joined output directory. *)
Definition record_of (session_func : list string) (output_dir : string)
    (session : Z) (subject_id : string) : SubjectData :=
  mkSubjectData subject_id
    (FuncPath (hd "" (demo_nyu_rest.matching session_func subject_id)))
    (posixpath.join output_dir
       [demo_nyu_rest.session_marker session; subject_id]).

(** A generator that yields the elements of [l] and then goes on as [g]. *)
Fixpoint yields {A : Type} (l : list A) (g : generator A) : generator A :=
  match l with
  | [] => g
  | a :: l' => Yield a (yields l' g)
  end.

(** The plot calls for the parameter files [rp], in order. *)
Definition plot_calls (subject_id dataset_id : string) (rp : list string)
  : list call :=
  map (fun p => Plot_spm_motion_parameters (snd p)
                  (plot_title subject_id (fst p) dataset_id))
      (zip_xrange rp).

(** The calls up to and including [transform] for one subject. *)
Definition engine_calls (dataset_id : string) (kw : kwargs) (s : SubjectData)
  : list call :=
  [Print (banner (subject_id s) dataset_id);
   MRIMotionCorrection kw;
   Fit (func s);
   Transform (output_dir s) true true].

(** The calls of one subject whose pipeline completes, [rp] being the
    parameter files [transform] left. *)
Definition subject_calls (dataset_id : string) (kw : kwargs) (s : SubjectData)
    (rp : list string) : list call :=
  (engine_calls dataset_id kw s
     ++ plot_calls (subject_id s) dataset_id rp ++ [Show])%list.

(** Sample subjects for the toy engine. *)
Definition good_subject : SubjectData :=
  mkSubjectData "s1" (FuncList ["/d/s1/run1.nii"; "/d/s1/run2.nii"]) "/out/s1".

Definition unfit_subject : SubjectData :=
  mkSubjectData "s2" (FuncList []) "/out/s2".

Definition homeless_subject : SubjectData :=
  mkSubjectData "s3" (FuncPath "/d/s3/run1.nii") "".

Definition corrupt_subject : SubjectData :=
  mkSubjectData "s4"
    (FuncList ["/d/s4/run1.nii"; "/d/s4/corrupt.nii"; "/d/s4/run3.nii"])
    "/out/s4".

Definition after_good : state nat :=
  fst (_demo_runner toy (Yield good_subject Exhausted) "toy" [] start).

(** The session-tagged factory on the dataset's layout, and the state the
    toy run on it ends in. *)
Definition dataset_subjects : generator SubjectData :=
  @demo_nyu_rest.subject_factory last_seen dataset_listing "/out" 1.

Definition dataset_done : state nat :=
  fst (_demo_runner toy dataset_subjects "NYU resting state" [] start).

(** ** The demo functions and the main block *)

(** The dataset fetchers: each takes the data directory, works on the
    outside world (network, disk) and returns what the demo reads from the
    fetched object ([func]; [func1] and [func2]), or raises. *)
Record fetchers (W : Type) : Type := {
  fetch_nyu_rest : string -> W -> W * (exn + list string);
  fetch_fsl_feeds_data : string -> W -> W * (exn + func_t);
  fetch_spm_multimodal_fmri_data : string -> W -> W * (exn + (string * string));
  fetch_spm_auditory_data : string -> W -> W * (exn + string)
}.
Arguments fetch_nyu_rest {W} f data_dir w.
Arguments fetch_fsl_feeds_data {W} f data_dir w.
Arguments fetch_spm_multimodal_fmri_data {W} f data_dir w.
Arguments fetch_spm_auditory_data {W} f data_dir w.

(** A fetch runs on the world; it is not one of the runner's calls. *)
Definition run_fetch {W A : Type} (f : W -> W * (exn + A)) : M W A :=
  fun st =>
    let (w, r) := f (world st) in
    (mkState w (calls st), r).

Module script.
Section Demos.
Context {W E : Type}.
Variable C : collaborators W E.
Variable F : fetchers W.

Definition demo_nyu_rest {O : SetOrder} (data_dir output_dir : string)
  : M W unit :=
  (nyu_func <- run_fetch (fetch_nyu_rest F data_dir) ;;
   run_nyu_rest C nyu_func output_dir)%run.

Definition demo_fsl_feeds (data_dir output_dir : string) : M W unit :=
  (fsl_func <- run_fetch (fetch_fsl_feeds_data F data_dir) ;;
   run_fsl_feeds C fsl_func output_dir)%run.

Definition demo_spm_multimodal_fmri (data_dir output_dir : string)
  : M W unit :=
  (funcs <- run_fetch (fetch_spm_multimodal_fmri_data F data_dir) ;;
   run_spm_multimodal_fmri C (fst funcs) (snd funcs) output_dir)%run.

Definition demo_spm_auditory (data_dir output_dir : string) : M W unit :=
  (auditory_func <- run_fetch (fetch_spm_auditory_data F data_dir) ;;
   run_spm_auditory C auditory_func output_dir)%run.

(** [if __name__ == '__main__':] the four demos with their default
    directories, in the order of the script. *)
Definition main {O : SetOrder} : M W unit :=
  (demo_spm_auditory "/tmp/spm_auditory_data" "/tmp/spm_auditory_output" ;;;
   demo_spm_multimodal_fmri "/tmp/spm_multimodal_fmri"
     "/tmp/spm_multimodal_fmri_output" ;;;
   demo_fsl_feeds "/tmp/fsl-feeds-data" "/tmp/fsl_feeds_mrimc_output" ;;;
   demo_nyu_rest "/tmp/nyu_data" "/tmp/nyu_mrimc_output")%run.

End Demos.
End script.

(** ** More vocabulary *)

(** The directory [join] appends a name to: [out] itself when it is empty or
    ends in a separator, [out + "/"] otherwise. *)
Definition with_sep (out : string) : string :=
  if String.eqb out "" || Py.endswith "/" out then out else out ++ "/".

(** The lines printed among the calls, oldest first. *)
Fixpoint banners (cs : list call) : list string :=
  match cs with
  | [] => []
  | Print line :: cs' => line :: banners cs'
  | _ :: cs' => banners cs'
  end.

(** Collaborators none of whose calls raises. *)
Definition never_raises {W E : Type} (C : collaborators W E) : Prop :=
  (forall kw w, exists w' e, mc_init C kw w = (w', inr e))
  /\ (forall e f w, exists w' e', mc_fit C e f w = (w', inr e'))
  /\ (forall e out r c w, exists w' e', mc_transform C e out r c w = (w', inr e'))
  /\ (forall rp title w, exists w',
        plot_spm_motion_parameters C rp title w = (w', inr tt))
  /\ (forall w, exists w', plt_show C w = (w', inr tt)).

(** An engine that takes everything: one parameter file per input path. *)
Definition calm : collaborators nat (list string) := {|
  mc_init := fun _ w => (w, inr []);
  mc_fit := fun _ f w =>
    match f with
    | FuncPath p => (w, inr [p])
    | FuncList ps => (w, inr ps)
    end;
  mc_transform := fun e out _ _ w =>
    (w, inr (map (fun p => posixpath.join out ["rp_" ++ posixpath.basename p]) e));
  mc_rp_filenames := fun e => e;
  plot_spm_motion_parameters := fun _ _ w => (S w, inr tt);
  plt_show := fun w => (w, inr tt)
|}.

(** Fetchers that find each dataset, except under an empty directory name. *)
Definition toy_fetch : fetchers nat := {|
  fetch_nyu_rest := fun d w =>
    if String.eqb d "" then (w, inl (Raised "fetch: no data_dir"))
    else (w, inr dataset_listing);
  fetch_fsl_feeds_data := fun d w =>
    if String.eqb d "" then (w, inl (Raised "fetch: no data_dir"))
    else (w, inr (FuncPath (posixpath.join d ["fmri.nii.gz"])));
  fetch_spm_multimodal_fmri_data := fun d w =>
    if String.eqb d "" then (w, inl (Raised "fetch: no data_dir"))
    else (w, inr (posixpath.join d ["run1.nii"], posixpath.join d ["run2.nii"]));
  fetch_spm_auditory_data := fun d w =>
    if String.eqb d "" then (w, inl (Raised "fetch: no data_dir"))
    else (w, inr (posixpath.join d ["fM00223.nii"]))
|}.

(** Fetchers without a network: every fetch raises. *)
Definition offline : fetchers nat := {|
  fetch_nyu_rest := fun _ w => (w, inl (Raised "fetch: offline"));
  fetch_fsl_feeds_data := fun _ w => (w, inl (Raised "fetch: offline"));
  fetch_spm_multimodal_fmri_data := fun _ w => (w, inl (Raised "fetch: offline"));
  fetch_spm_auditory_data := fun _ w => (w, inl (Raised "fetch: offline"))
|}.

(** The state the main block ends in with the calm engine and the toy
    fetchers. *)
Definition main_done : state nat :=
  fst (@script.main nat (list string) calm toy_fetch last_seen start).

(** The state the auditory demo ends in with the calm engine. *)
Definition auditory_done : state nat :=
  Eval vm_compute in
    fst (run_spm_auditory calm "/data/fM00223.nii" "/out" start).

(** ** A run that returns, call by call *)

(** The title of the plot of session [k], written out. *)
Definition session_title (subject_id : string) (k : nat) (dataset_id : string)
  : string :=
  "Estimated motion for " ++ subject_id ++ " (session "
    ++ Py.format_i (Z.of_nat k) ++ ") of '" ++ dataset_id ++ "'".

(** One plot call per parameter file, in the order of the files, the
    sessions numbered from [k] on. *)
Fixpoint render_calls (subject_id dataset_id : string) (k : nat)
    (rp : list string) : list call :=
  match rp with
  | [] => []
  | f :: rp' =>
      Plot_spm_motion_parameters f (session_title subject_id k dataset_id)
        :: render_calls subject_id dataset_id (S k) rp'
  end.

(** The plots of the files [rp], one after the other and each returning,
    take the world from [w] to [w']. *)
Inductive renders_in_order {W E : Type} (C : collaborators W E)
    (subject_id dataset_id : string) : nat -> list string -> W -> W -> Prop :=
| renders_none (k : nat) (w : W) :
    renders_in_order C subject_id dataset_id k [] w w
| renders_next (k : nat) (f : string) (rp : list string) (w w1 w' : W) :
    plot_spm_motion_parameters C f (session_title subject_id k dataset_id) w
    = (w1, inr tt) ->
    renders_in_order C subject_id dataset_id (S k) rp w1 w' ->
    renders_in_order C subject_id dataset_id k (f :: rp) w w'.

(** The pipeline of one subject, every call returning, from state [st] to
    state [st']: the engine is built in the world of [st], [fit] runs on
    that engine, [transform] on the fitted engine, the plots on the
    parameter files that this [transform] left, then the display. *)
Inductive subject_done {W E : Type} (C : collaborators W E)
    (dataset_id : string) (kw : kwargs) (s : SubjectData)
    (st st' : state W) : Prop :=
| subject_done_intro (w1 w2 w3 w4 w5 : W) (e0 e1 e2 : E) :
    mc_init C kw (world st) = (w1, inr e0) ->
    mc_fit C e0 (func s) w1 = (w2, inr e1) ->
    mc_transform C e1 (output_dir s) true true w2 = (w3, inr e2) ->
    renders_in_order C (subject_id s) dataset_id 0 (mc_rp_filenames C e2)
      w3 w4 ->
    plt_show C w4 = (w5, inr tt) ->
    st' = mkState w5
            (calls st
             ++ [Print (tab ++ tab ++ "Motion correction for "
                          ++ subject_id s ++ " (" ++ dataset_id ++ ")");
                 MRIMotionCorrection kw;
                 Fit (func s);
                 Transform (output_dir s) true true]
             ++ render_calls (subject_id s) dataset_id 0
                  (mc_rp_filenames C e2)
             ++ [Show]) ->
    subject_done C dataset_id kw s st st'.

(** The pipelines of the subjects of a list, one after the other. *)
Inductive subjects_done {W E : Type} (C : collaborators W E)
    (dataset_id : string) (kw : kwargs)
  : list SubjectData -> state W -> state W -> Prop :=
| subjects_done_nil (st : state W) : subjects_done C dataset_id kw [] st st
| subjects_done_cons (s : SubjectData) (rest : list SubjectData)
    (st st1 st' : state W) :
    subject_done C dataset_id kw s st st1 ->
    subjects_done C dataset_id kw rest st1 st' ->
    subjects_done C dataset_id kw (s :: rest) st st'.

(** * Properties *)

(** ** Strings *)

Section StringFacts.
Import Py.

Lemma append_assoc (a b c : string) : (a ++ b) ++ c = a ++ (b ++ c).
Proof.
  induction a as [|x a IH]; simpl; [reflexivity | now rewrite IH].
Qed.

Lemma append_nil_r (a : string) : a ++ "" = a.
Proof.
  induction a as [|x a IH]; simpl; [reflexivity | now rewrite IH].
Qed.

Lemma length_append (a b : string) :
  String.length (a ++ b) = String.length a + String.length b.
Proof.
  induction a as [|x a IH]; simpl; [reflexivity | now rewrite IH].
Qed.

Lemma startswith_spec (pre s : string) :
  startswith pre s = true <-> exists q, s = pre ++ q.
Proof.
  unfold startswith. revert pre.
  induction s as [|b s IH]; intros [|a pre]; simpl.
  - split; [exists ""; reflexivity | reflexivity].
  - split; [discriminate | intros [q Hq]; discriminate].
  - split; [intros _; exists (String b s); reflexivity | reflexivity].
  - destruct (ascii_dec a b) as [->|Hab].
    + rewrite IH. split; intros [q Hq]; exists q.
      * now rewrite Hq.
      * now inversion Hq.
    + split; [discriminate | intros [q Hq]; inversion Hq; congruence].
Qed.

Lemma str_in_here (needle hay : string) :
  startswith needle hay = true -> str_in needle hay = true.
Proof.
  intro H. destruct hay; cbn [str_in]; now rewrite H.
Qed.

Lemma str_in_later (needle : string) (c : ascii) (hay : string) :
  startswith needle (String c hay) = false ->
  str_in needle (String c hay) = str_in needle hay.
Proof.
  intro H. cbn [str_in]. now rewrite H.
Qed.

Lemma str_in_spec (needle hay : string) :
  str_in needle hay = true <-> exists p q, hay = p ++ needle ++ q.
Proof.
  induction hay as [|c hay IH].
  - split.
    + intro H. exists "". cbn [append]. apply startswith_spec.
      cbn [str_in] in H. destruct (startswith needle ""); [reflexivity | discriminate].
    + intros (p & q & H). destruct p; [|discriminate].
      apply str_in_here, startswith_spec. exists q. exact H.
  - destruct (startswith needle (String c hay)) eqn:Hp.
    + split; [intros _ | intros _; now apply str_in_here].
      apply startswith_spec in Hp. destruct Hp as [q Hq].
      exists "", q. exact Hq.
    + rewrite (str_in_later _ _ _ Hp), IH. split.
      * intros (p & q & H). exists (String c p), q. simpl. now rewrite H.
      * intros (p & q & H). destruct p as [|c' p].
        -- assert (startswith needle (String c hay) = true)
             by (apply startswith_spec; exists q; exact H).
           congruence.
        -- simpl in H. inversion H. exists p, q. reflexivity.
Qed.


Lemma slice_to_from (i : nat) (s : string) :
  slice_to i s ++ slice_from i s = s.
Proof.
  revert s. induction i as [|i IH]; intros [|a s]; simpl; try reflexivity.
  now rewrite IH.
Qed.

Lemma rstrip_prefix (c : ascii) (s : string) :
  exists t, s = rstrip c s ++ t.
Proof.
  induction s as [|a s [t IH]]; simpl.
  - exists "". reflexivity.
  - destruct (rstrip c s) as [|b r] eqn:Hr.
    + destruct (Ascii.eqb a c).
      * exists (String a s). reflexivity.
      * exists t. simpl. now rewrite IH at 1.
    + exists t. simpl. now rewrite IH at 1.
Qed.

Lemma dirname_prefix (p : string) : exists t, p = posixpath.dirname p ++ t.
Proof.
  unfold posixpath.dirname.
  set (head := slice_to (rfind_succ posixpath.sep p) p).
  assert (Hhead : p = head ++ slice_from (rfind_succ posixpath.sep p) p)
    by (symmetry; apply slice_to_from).
  destruct (negb (String.eqb head "")
            && negb (String.eqb head (str_mul "/" (String.length head)))).
  - destruct (rstrip_prefix posixpath.sep head) as [t Ht].
    exists (t ++ slice_from (rfind_succ posixpath.sep p) p).
    rewrite <- append_assoc, <- Ht. exact Hhead.
  - eexists. exact Hhead.
Qed.

Lemma basename_suffix (p : string) : exists h, p = h ++ posixpath.basename p.
Proof.
  exists (slice_to (rfind_succ posixpath.sep p) p).
  symmetry. apply slice_to_from.
Qed.

Lemma slice_from_append (a b : string) (k : nat) :
  slice_from (String.length a + k) (a ++ b) = slice_from k b.
Proof. induction a as [|x a IH]; simpl; [reflexivity | exact IH]. Qed.

(** A suffix test looks at the end of the string only. *)
Lemma endswith_append (suf a b : string) :
  String.length suf <= String.length b ->
  endswith suf (a ++ b) = endswith suf b.
Proof.
  intro H. unfold endswith. rewrite length_append.
  replace (Nat.leb (String.length suf) (String.length a + String.length b))
    with true by (symmetry; apply Nat.leb_le; lia).
  replace (Nat.leb (String.length suf) (String.length b))
    with true by (symmetry; apply Nat.leb_le; lia).
  replace (String.length a + String.length b - String.length suf)
    with (String.length a + (String.length b - String.length suf)) by lia.
  now rewrite slice_from_append.
Qed.

Lemma append_cons_not_empty (a : string) (c : ascii) (b : string) :
  String.eqb (a ++ String c b) "" = false.
Proof. destruct a; reflexivity. Qed.

(** [join(out, "session1", id)] ends in ["session1/" + id] when [id] is a
    relative name. *)
Lemma join_session1 (out id : string) :
  startswith "/" id = false ->
  exists p, posixpath.join out ["session1"; id] = p ++ "session1/" ++ id.
Proof.
  intro Hid.
  assert (H1 : exists p, posixpath.join_step out "session1" = p ++ "session1").
  { unfold posixpath.join_step.
    replace (startswith "/" "session1") with false by reflexivity.
    destruct (String.eqb out "" || endswith "/" out).
    - exists out. reflexivity.
    - exists (out ++ "/"). now rewrite append_assoc. }
  destruct H1 as [p Hp]. exists p.
  unfold posixpath.join. cbn [fold_left]. rewrite Hp.
  unfold posixpath.join_step. rewrite Hid.
  rewrite (append_cons_not_empty p "s" "ession1").
  rewrite endswith_append by (simpl; lia).
  replace (endswith "/" "session1") with false by reflexivity.
  cbn [orb]. now rewrite append_assoc.
Qed.

End StringFacts.

(** The embedded builtins on sample inputs. *)

Example dirname_file :
  posixpath.dirname "/d/session1/s1/f.nii" = "/d/session1/s1".
Proof. reflexivity. Qed.

Example dirname_root : posixpath.dirname "/f.nii" = "/".
Proof. reflexivity. Qed.

Example dirname_double_slash : posixpath.dirname "a//b" = "a".
Proof. reflexivity. Qed.

Example dirname_no_slash : posixpath.dirname "f.nii" = "".
Proof. reflexivity. Qed.

Example basename_file : posixpath.basename "/d/session1/s1/f.nii" = "f.nii".
Proof. reflexivity. Qed.

Example basename_trailing_slash : posixpath.basename "/d/s1/" = "".
Proof. reflexivity. Qed.

Example join_relative :
  posixpath.join "/tmp/out" ["session1"; "s1"] = "/tmp/out/session1/s1".
Proof. reflexivity. Qed.

Example join_trailing_slash :
  posixpath.join "/tmp/out/" ["sub001"] = "/tmp/out/sub001".
Proof. reflexivity. Qed.

Example join_absolute : posixpath.join "/tmp/out" ["/abs"; "s1"] = "/abs/s1".
Proof. reflexivity. Qed.

Example format_i_10 : Py.format_i 10 = "10".
Proof. reflexivity. Qed.

Example format_i_neg : Py.format_i (-3) = "-3".
Proof. reflexivity. Qed.

Example str_in_empty : Py.str_in "" "abc" = true.
Proof. reflexivity. Qed.

Example str_in_middle : Py.str_in "session1" "/d/session10/s1" = true.
Proof. reflexivity. Qed.

Example str_in_absent : Py.str_in "session2" "/d/session10/s1" = false.
Proof. reflexivity. Qed.

Example subject_of_scenario :
  demo_nyu_rest.subject_of "/d/session1/s1/f.nii" = "session1".
Proof. reflexivity. Qed.

Example subject_of_dataset :
  demo_nyu_rest.subject_of "/d/session1/s1/func/f.nii" = "s1".
Proof. reflexivity. Qed.

(** ** The session-tagged factory *)

Section NyuFacts.
Import Py posixpath demo_nyu_rest.

Lemma subject_of_in (x : string) : str_in (subject_of x) x = true.
Proof.
  apply str_in_spec. unfold subject_of.
  destruct (dirname_prefix x) as [t1 H1].
  destruct (dirname_prefix (dirname x)) as [t2 H2].
  destruct (basename_suffix (dirname (dirname x))) as [h H3].
  exists h, (t2 ++ t1).
  rewrite <- !append_assoc, <- H3, <- H2. exact H1.
Qed.

Lemma matching_In (sf : list string) (id x : string) :
  In x (matching sf id) <-> In x sf /\ str_in id x = true.
Proof. unfold matching. apply filter_In. Qed.

Lemma session_func_In (l : list string) (session : Z) (x : string) :
  In x (session_func l session)
  <-> In x l /\ str_in (session_marker session) x = true.
Proof. unfold session_func. apply filter_In. Qed.

Lemma subject_ids_In (l : list string) (session : Z) (id : string) :
  In id (subject_ids l session)
  <-> exists x, In x (session_func l session) /\ id = subject_of x.
Proof.
  unfold subject_ids. rewrite in_map_iff.
  split; intros (x & H1 & H2); exists x; [split; [exact H2 | now symmetry] | now split].
Qed.

(** A derived identifier matches the path it was derived from. *)
Lemma derived_matches (l : list string) (session : Z) (id : string) :
  In id (subject_ids l session) ->
  exists x, In x (session_func l session) /\ id = subject_of x
            /\ In x (matching (session_func l session) id).
Proof.
  intros H. apply subject_ids_In in H. destruct H as (x & Hx & ->).
  exists x. repeat split; try assumption.
  apply matching_In. split; [assumption | apply subject_of_in].
Qed.


(** One round of the loop, by the number of matching paths. *)
Lemma subject_loop_one (sf : list string) (out : string) (session : Z)
    (id : string) (ids : list string) :
  List.length (matching sf id) = 1 ->
  subject_loop sf out session (id :: ids)
  = Yield (record_of sf out session id) (subject_loop sf out session ids).
Proof.
  intro H. simpl. rewrite H. simpl. unfold record_of.
  destruct (matching sf id); [discriminate | reflexivity].
Qed.

Lemma subject_loop_other (sf : list string) (out : string) (session : Z)
    (id : string) (ids : list string) :
  List.length (matching sf id) <> 1 ->
  subject_loop sf out session (id :: ids) = Raises AssertionError.
Proof.
  intro H. simpl. apply Nat.eqb_neq in H. now rewrite H.
Qed.

Lemma subject_loop_all (sf : list string) (out : string) (session : Z)
    (ids : list string) :
  Forall (fun id => List.length (matching sf id) = 1) ids ->
  subject_loop sf out session ids
  = yields (map (record_of sf out session) ids) Exhausted.
Proof.
  induction 1 as [|id ids H _ IH]; [reflexivity |].
  rewrite subject_loop_one by exact H. simpl. now rewrite IH.
Qed.

(** The loop ends in an exception exactly when some identifier does not
    match one path, and the exception is then the assertion's. *)
Lemma subject_loop_ending (sf : list string) (out : string) (session : Z)
    (ids : list string) :
  (Forall (fun id => List.length (matching sf id) = 1) ids
   /\ ending (subject_loop sf out session ids) = None)
  \/ (Exists (fun id => List.length (matching sf id) <> 1) ids
      /\ ending (subject_loop sf out session ids) = Some AssertionError).
Proof.
  induction ids as [|id ids IH].
  - left. split; [constructor | reflexivity].
  - destruct (Nat.eq_dec (List.length (matching sf id)) 1) as [H|H].
    + rewrite subject_loop_one by exact H. simpl.
      destruct IH as [[IH1 IH2]|[IH1 IH2]].
      * left. split; [now constructor | exact IH2].
      * right. split; [now apply Exists_cons_tl | exact IH2].
    + rewrite subject_loop_other by exact H. right.
      split; [now apply Exists_cons_hd | reflexivity].
Qed.

(** What the loop yields are records of identifiers with one matching path. *)
Lemma subject_loop_yielded (sf : list string) (out : string) (session : Z)
    (ids : list string) (r : SubjectData) :
  In r (yielded (subject_loop sf out session ids)) ->
  exists id, In id ids /\ List.length (matching sf id) = 1
             /\ r = record_of sf out session id.
Proof.
  induction ids as [|id ids IH]; [intros [] |].
  destruct (Nat.eq_dec (List.length (matching sf id)) 1) as [H|H].
  - rewrite subject_loop_one by exact H. simpl. intros [<-|Hr].
    + exists id. repeat split; [now left | exact H].
    + destruct (IH Hr) as (id' & H1 & H2 & H3).
      exists id'. repeat split; [now right | exact H2 | exact H3].
  - rewrite subject_loop_other by exact H. intros [].
Qed.

Lemma yielded_yields {A : Type} (l : list A) (g : generator A) :
  yielded (yields l g) = (l ++ yielded g)%list.
Proof. induction l as [|a l IH]; simpl; [reflexivity | now rewrite IH]. Qed.

Lemma ending_yields {A : Type} (l : list A) (g : generator A) :
  ending (yields l g) = ending g.
Proof. induction l as [|a l IH]; simpl; [reflexivity | exact IH]. Qed.

End NyuFacts.

(** ** Iteration over a set *)

Section SetOrderFacts.

Lemma set_iter_perm (O1 O2 : SetOrder) (l : list string) :
  Permutation (@set_iter O1 l) (@set_iter O2 l).
Proof.
  apply NoDup_Permutation; try apply set_iter_NoDup.
  intro x. now rewrite !set_iter_In.
Qed.

Lemma set_iter_nil (O : SetOrder) : set_iter [] = [].
Proof.
  destruct (set_iter []) as [|x l] eqn:H; [reflexivity |].
  assert (Hx : In x (set_iter [])) by (rewrite H; now left).
  exfalso. exact (proj1 (set_iter_In [] x) Hx).
Qed.

(** The number of elements iterated over is the number of distinct ones. *)
Lemma set_iter_length (O : SetOrder) (l : list string) :
  List.length (set_iter l) = List.length (nodup string_dec l).
Proof.
  apply Permutation_length. apply (set_iter_perm O last_seen).
Qed.

End SetOrderFacts.

(** ** Claims on the subject factories *)

Section FactoryClaims.
Import Py posixpath demo_nyu_rest.

Lemma length_one_hd (l : list string) :
  List.length l = 1 -> l = [hd "" l].
Proof. destruct l as [|x [|y l]]; simpl; try discriminate; reflexivity. Qed.

(** A list filtered down to one element: that element passes the test and
    is the only one of the list that does. *)
Lemma filter_singleton {A : Type} (f : A -> bool) (l : list A) (x : A) :
  filter f l = [x] ->
  In x l /\ f x = true /\ forall y, In y l -> f y = true -> y = x.
Proof.
  intro H.
  assert (Hx : In x (filter f l)) by (rewrite H; now left).
  apply filter_In in Hx. destruct Hx as [Hx1 Hx2].
  repeat split; try assumption.
  intros y Hy Hfy.
  assert (Hin : In y (filter f l)) by (apply filter_In; now split).
  rewrite H in Hin. destruct Hin as [<-|[]]. reflexivity.
Qed.

(** C2. In the session-tagged variant every record yielded is for a derived
    identifier and carries a path of the listing that contains the session
    marker and the identifier, the only path of the session that contains
    the identifier; the factory ends in the assertion's failure exactly
    when, for some derived identifier, the number of paths of the session
    that contain it is not one (none, or more than one); and when that
    number is one for every derived identifier, the factory runs to
    exhaustion and each identifier gets its record, with that one path. *)
Theorem nyu_unique_path_or_assertion (O : SetOrder) (nyu_func : list string)
    (out : string) (session : Z) :
  let sf := filter (fun x => str_in ("session" ++ format_i session) x)
              nyu_func in
  let ids := map (fun x => basename (dirname (dirname x))) sf in
  let g := subject_factory nyu_func out session in
  (forall r, In r (yielded g) ->
     In (subject_id r) ids
     /\ exists x,
          func r = FuncPath x
          /\ In x nyu_func
          /\ str_in ("session" ++ format_i session) x = true
          /\ str_in (subject_id r) x = true
          /\ (forall y, In y sf -> str_in (subject_id r) y = true -> y = x)
          /\ filter (fun y => str_in (subject_id r) y) sf = [x])
  /\ ((exists id, In id ids
                  /\ List.length (filter (fun y => str_in id y) sf) <> 1)
      <-> ending g = Some AssertionError)
  /\ ((forall id, In id ids ->
                  List.length (filter (fun y => str_in id y) sf) = 1) ->
      ending g = None
      /\ yielded g
         = map (fun id =>
                  mkSubjectData id
                    (FuncPath (hd "" (filter (fun y => str_in id y) sf)))
                    (join out ["session" ++ format_i session; id]))
             (set_iter ids)).
Proof.
  intros sf ids g.
  change sf with (session_func nyu_func session) in *.
  change ids with (subject_ids nyu_func session) in *.
  clear sf ids. set (sf := session_func nyu_func session).
  unfold g, subject_factory. fold sf.
  pose proof (subject_loop_ending sf out session
                (set_iter (subject_ids nyu_func session))) as End.
  split; [| split; [split |]].
  - intros r H. apply subject_loop_yielded in H.
    destruct H as (id & H1 & H2 & ->). cbn [record_of subject_id func].
    split; [now apply set_iter_In |].
    exists (hd "" (matching sf id)).
    pose proof (length_one_hd _ H2) as Hm. unfold matching in Hm at 1.
    destruct (filter_singleton _ _ _ Hm) as (Hx & Hs & Hu).
    apply session_func_In in Hx. destruct Hx as [Hx1 Hx2].
    repeat split; try assumption.
  - intros (id & H1 & H2). destruct End as [[F _]|[_ E]]; [| exact E].
    rewrite Forall_forall in F. exfalso. apply H2, F.
    now apply set_iter_In.
  - intros E. destruct End as [[_ N]|[X _]]; [congruence |].
    apply Exists_exists in X. destruct X as (id & H1 & H2).
    exists id. split; [now apply set_iter_In | exact H2].
  - intros H.
    assert (F : Forall (fun id => List.length (matching sf id) = 1)
                  (set_iter (subject_ids nyu_func session))).
    { apply Forall_forall. intros id Hid. apply H. now apply set_iter_In. }
    rewrite (subject_loop_all _ _ _ _ F), ending_yields, yielded_yields.
    simpl. now rewrite app_nil_r.
Qed.




Lemma subject_loop_length (sf : list string) (out : string) (session : Z)
    (ids : list string) :
  List.length (yielded (subject_loop sf out session ids)) <= List.length ids.
Proof.
  induction ids as [|id ids IH]; [simpl; lia |].
  destruct (Nat.eq_dec (List.length (matching sf id)) 1) as [H|H].
  - rewrite subject_loop_one by exact H. simpl. lia.
  - rewrite subject_loop_other by exact H. simpl. lia.
Qed.

(** A session with no path gives a generator that is exhausted at once. *)
Lemma subject_factory_no_path (O : SetOrder) (nyu_func : list string)
    (out : string) (session : Z) :
  session_func nyu_func session = [] ->
  subject_factory nyu_func out session = Exhausted.
Proof.
  intro H. unfold subject_factory, subject_ids. rewrite H. simpl.
  now rewrite set_iter_nil.
Qed.

(** The scenario's listing: both files have "session1" two levels up. *)
Lemma scenario_set_iter (O : SetOrder) :
  set_iter (subject_ids scenario_listing 1) = ["session1"].
Proof.
  apply Permutation_length_1_inv. apply Permutation_sym.
  exact (set_iter_perm O last_seen (subject_ids scenario_listing 1)).
Qed.

Lemma dataset_set_iter (O : SetOrder) :
  set_iter (subject_ids dataset_listing 1) = ["s1"; "s2"]
  \/ set_iter (subject_ids dataset_listing 1) = ["s2"; "s1"].
Proof.
  apply Permutation_length_2_inv. apply Permutation_sym.
  exact (set_iter_perm O last_seen (subject_ids dataset_listing 1)).
Qed.

(** The claim C1 as the spec has it fails: on the scenario's listing no
    iteration order makes the factory yield two records. *)
Lemma nyu_scenario_counterexample :
  ~ exists (O : SetOrder) (out : string),
      List.length (yielded (subject_factory scenario_listing out 1)) = 2.
Proof.
  intros (O & out & H). unfold subject_factory in H.
  rewrite scenario_set_iter in H. discriminate H.
Qed.

(** C1, amended. On the listing of the scenario the directory two levels
    above each file is "session1": the one identifier is contained in both
    paths and the factory fails on the assertion before it yields. With the
    subject directory two levels above the file, session 1 gives two
    records, in some order, for "s1" and "s2", with output directories that
    end in "session1/s1" and "session1/s2". *)
Theorem nyu_scenario (O : SetOrder) (out : string) :
  (map subject_of scenario_listing = ["session1"; "session1"]
   /\ yielded (subject_factory scenario_listing out 1) = []
   /\ ending (subject_factory scenario_listing out 1) = Some AssertionError)
  /\ (map subject_of dataset_listing = ["s1"; "s2"]
      /\ ending (subject_factory dataset_listing out 1) = None
      /\ Permutation (yielded (subject_factory dataset_listing out 1))
           [mkSubjectData "s1" (FuncPath "/d/session1/s1/func/f.nii")
              (join out ["session1"; "s1"]);
            mkSubjectData "s2" (FuncPath "/d/session1/s2/func/f.nii")
              (join out ["session1"; "s2"])]
      /\ (exists p, join out ["session1"; "s1"] = p ++ "session1/s1")
      /\ (exists p, join out ["session1"; "s2"] = p ++ "session1/s2")).
Proof.
  split; [split; [reflexivity |] | split; [reflexivity |]].
  - unfold subject_factory. rewrite scenario_set_iter. split; reflexivity.
  - unfold subject_factory.
    assert (F : forall ids, incl ids ["s1"; "s2"] ->
              Forall (fun id => List.length
                        (matching (session_func dataset_listing 1) id) = 1) ids).
    { intros ids Hi. apply Forall_forall. intros id Hid.
      destruct (Hi id Hid) as [<-|[<-|[]]]; reflexivity. }
    repeat split.
    + destruct (dataset_set_iter O) as [-> | ->];
        (rewrite subject_loop_all, ending_yields;
         [reflexivity | apply F; intros x Hx; simpl in *; tauto]).
    + destruct (dataset_set_iter O) as [-> | ->];
        (rewrite subject_loop_all, yielded_yields;
         [| apply F; intros x Hx; simpl in *; tauto]).
      * apply Permutation_refl.
      * apply perm_swap.
    + apply join_session1. reflexivity.
    + apply join_session1. reflexivity.
Qed.

(** The claim C5 as the spec has it fails: the scenario's listing has one
    distinct identifier and the factory yields no record. *)
Lemma factory_record_count_counterexample :
  ~ forall (O : SetOrder) (nyu_func : list string) (out : string) (session : Z),
      List.length (yielded (subject_factory nyu_func out session))
      = List.length (nodup string_dec (subject_ids nyu_func session)).
Proof.
  intro H.
  specialize (H last_seen scenario_listing "/tmp/nyu_mrimc_output" 1%Z).
  vm_compute in H. discriminate H.
Qed.

(** C5, amended. A session-tagged factory that runs to exhaustion yields as
    many records as there are distinct derived identifiers, and never more
    than that; each of the three single-subject factories yields one. *)
Theorem factory_record_count (O : SetOrder) (nyu_func : list string)
    (out : string) (session : Z) (fsl_func : func_t)
    (func1 func2 auditory_func : string) :
  (ending (subject_factory nyu_func out session) = None ->
   List.length (yielded (subject_factory nyu_func out session))
   = List.length (nodup string_dec (subject_ids nyu_func session)))
  /\ List.length (yielded (subject_factory nyu_func out session))
     <= List.length (nodup string_dec (subject_ids nyu_func session))
  /\ List.length (yielded (demo_fsl_feeds.subject_factory fsl_func out)) = 1
  /\ List.length
       (yielded (demo_spm_multimodal_fmri.subject_factory func1 func2 out)) = 1
  /\ List.length
       (yielded (demo_spm_auditory.subject_factory auditory_func out)) = 1.
Proof.
  rewrite <- (set_iter_length O). unfold subject_factory.
  split; [| split; [apply subject_loop_length | repeat split]].
  intro E.
  destruct (subject_loop_ending (session_func nyu_func session) out session
              (set_iter (subject_ids nyu_func session))) as [[F _]|[_ X]].
  - rewrite (subject_loop_all _ _ _ _ F), yielded_yields. simpl.
    now rewrite app_nil_r, length_map.
  - congruence.
Qed.

(** The witness of C5: the dataset's layout, two subjects, two records. *)
Lemma factory_record_count_witness :
  ending (@subject_factory last_seen dataset_listing "/tmp/nyu_mrimc_output" 1)
  = None
  /\ List.length
       (yielded (@subject_factory last_seen dataset_listing
                   "/tmp/nyu_mrimc_output" 1))
     = List.length (nodup string_dec (subject_ids dataset_listing 1)).
Proof.
  split; [reflexivity |].
  apply (factory_record_count last_seen dataset_listing
           "/tmp/nyu_mrimc_output" 1%Z (FuncPath "") "" "" "").
  reflexivity.
Defined.

(** The claim C6 as the spec has it fails when the set is iterated in
    another order on the second invocation: with one good subject and one
    ambiguous subject, one order yields a record before the assertion
    fails and the other yields none. *)
Lemma factory_restartable_counterexample :
  ~ forall (O1 O2 : SetOrder) (nyu_func : list string) (out : string)
           (session : Z),
      Permutation (yielded (@subject_factory O1 nyu_func out session))
                  (yielded (@subject_factory O2 nyu_func out session)).
Proof.
  intro H.
  specialize (H last_seen last_seen_rev
                ["/d/session1/s1/func/f.nii";
                 "/d/session1/s2/func/a.nii"; "/d/session1/s2/func/b.nii"]
                "/out" 1%Z).
  apply Permutation_length in H. vm_compute in H. discriminate H.
Qed.

(** C6, amended. Whatever the order in which each of two invocations on
    the same listing iterates the set, they end the same way (both run to
    exhaustion, or both fail on the assertion), and when they run to
    exhaustion they yield the same records up to order. *)
Theorem factory_restartable (O1 O2 : SetOrder) (nyu_func : list string)
    (out : string) (session : Z) :
  let g1 := @subject_factory O1 nyu_func out session in
  let g2 := @subject_factory O2 nyu_func out session in
  ending g1 = ending g2
  /\ (ending g1 = None -> Permutation (yielded g1) (yielded g2)).
Proof.
  intros g1 g2. unfold g1, g2, subject_factory.
  set (sf := session_func nyu_func session).
  set (ids := subject_ids nyu_func session).
  pose proof (subject_loop_ending sf out session (@set_iter O1 ids)) as E1.
  pose proof (subject_loop_ending sf out session (@set_iter O2 ids)) as E2.
  assert (Same : forall id, In id (@set_iter O1 ids) <-> In id (@set_iter O2 ids))
    by (intro id; now rewrite !set_iter_In).
  split.
  - destruct E1 as [[F1 N1]|[X1 A1]], E2 as [[F2 N2]|[X2 A2]]; try congruence.
    + exfalso. apply Exists_exists in X2. destruct X2 as (id & H1 & H2).
      rewrite Forall_forall in F1. apply H2, F1, Same, H1.
    + exfalso. apply Exists_exists in X1. destruct X1 as (id & H1 & H2).
      rewrite Forall_forall in F2. apply H2, F2, Same, H1.
  - intro N. destruct E1 as [[F1 _]|[_ A1]]; [| congruence].
    assert (F2 : Forall (fun id => List.length (matching sf id) = 1)
                   (@set_iter O2 ids)).
    { apply Forall_forall. intros id Hid. rewrite Forall_forall in F1.
      apply F1, Same, Hid. }
    rewrite (subject_loop_all _ _ _ _ F1), (subject_loop_all _ _ _ _ F2).
    rewrite !yielded_yields. simpl. rewrite !app_nil_r.
    apply Permutation_map, set_iter_perm.
Qed.

(** When an identifier is ambiguous, what is yielded before the failure
    depends on where the iteration meets it. *)
Example yielded_before_failure :
  let l := ["/d/session1/s1/func/f.nii";
            "/d/session1/s2/func/a.nii"; "/d/session1/s2/func/b.nii"] in
  @subject_factory last_seen l "/out" 1
  = Yield (mkSubjectData "s1" (FuncPath "/d/session1/s1/func/f.nii")
             "/out/session1/s1")
          (Raises AssertionError)
  /\ @subject_factory last_seen_rev l "/out" 1 = Raises AssertionError.
Proof. split; reflexivity. Qed.

(** The witness of C6: the two sample orders on the dataset's layout. *)
Lemma factory_restartable_witness :
  ending (@subject_factory last_seen dataset_listing "/out" 1) = None
  /\ Permutation
       (yielded (@subject_factory last_seen dataset_listing "/out" 1))
       (yielded (@subject_factory last_seen_rev dataset_listing "/out" 1)).
Proof.
  split; [reflexivity |].
  apply (factory_restartable last_seen last_seen_rev dataset_listing "/out" 1%Z).
  reflexivity.
Defined.

End FactoryClaims.

(** ** The runner *)

Section RunnerFacts.
Context {W E : Type}.
Variable C : collaborators W E.

Lemma invoke_eq {A : Type} (c : call) (f : W -> W * (exn + A)) (st : state W)
    (w : W) (r : exn + A) :
  f (world st) = (w, r) ->
  invoke c f st = (mkState w (calls st ++ [c]), r).
Proof. intro H. unfold invoke. now rewrite H. Qed.

Lemma bind_ok {A B : Type} (m : M W A) (k : A -> M W B) (st st' : state W)
    (a : A) :
  m st = (st', inr a) -> bind m k st = k a st'.
Proof. intro H. unfold bind. now rewrite H. Qed.

Lemma bind_raise {A B : Type} (m : M W A) (k : A -> M W B) (st st' : state W)
    (e : exn) :
  m st = (st', inl e) -> bind m k st = (st', inl e).
Proof. intro H. unfold bind. now rewrite H. Qed.

(** A loop whose rounds are single calls: when it returns, it has logged
    one call per element, in order. *)
Lemma for_list_invoke_ok {A : Type} (callof : A -> call)
    (act : A -> W -> W * (exn + unit)) (l : list A) (st st' : state W) :
  for_list l (fun a => invoke (callof a) (act a)) st = (st', inr tt) ->
  calls st' = (calls st ++ map callof l)%list.
Proof.
  revert st. induction l as [|a l IH]; intros st H.
  - inversion H. simpl. now rewrite app_nil_r.
  - cbn [for_list] in H. unfold bind in H.
    destruct (invoke (callof a) (act a) st) as [st1 [e|[]]] eqn:Ha;
      [discriminate |].
    unfold invoke in Ha. destruct (act a (world st)) as [w r].
    inversion Ha; subst. apply IH in H. rewrite H. simpl.
    now rewrite <- app_assoc.
Qed.

(** A loop stops at the first round that raises. *)
Lemma for_list_stops {A : Type} (body : A -> M W unit) (l1 l2 : list A)
    (a : A) (st st1 st2 : state W) (e : exn) :
  for_list l1 body st = (st1, inr tt) ->
  body a st1 = (st2, inl e) ->
  for_list (l1 ++ a :: l2) body st = (st2, inl e).
Proof.
  revert st. induction l1 as [|b l1 IH]; intros st H1 H2.
  - inversion H1; subst. simpl. now apply bind_raise.
  - cbn [for_list app] in *. unfold bind in *.
    destruct (body b st) as [st' [e'|[]]]; [discriminate |].
    now apply IH.
Qed.

Lemma for_gen_yields {A : Type} (body : A -> M W unit) (l : list A)
    (g : generator A) (st st1 : state W) :
  for_list l body st = (st1, inr tt) ->
  for_gen (yields l g) body st = for_gen g body st1.
Proof.
  revert st. induction l as [|a l IH]; intros st H.
  - inversion H. reflexivity.
  - cbn [for_list yields for_gen] in *. unfold bind in *.
    destruct (body a st) as [st' [e'|[]]]; [discriminate |].
    now apply IH.
Qed.

Lemma zip_xrange_from {A : Type} (l1 l2 : list A) (a : nat) :
  combine (seq a (List.length (l1 ++ l2))) (l1 ++ l2)
  = (combine (seq a (List.length l1)) l1
     ++ combine (seq (a + List.length l1) (List.length l2)) l2)%list.
Proof.
  revert a. induction l1 as [|x l1 IH]; intro a; simpl.
  - now rewrite Nat.add_0_r.
  - rewrite IH. now rewrite Nat.add_succ_r.
Qed.

Lemma zip_xrange_app {A : Type} (l1 l2 : list A) (x : A) :
  zip_xrange (l1 ++ x :: l2)
  = (zip_xrange l1 ++ (List.length l1, x)
       :: combine (seq (S (List.length l1)) (List.length l2)) l2)%list.
Proof.
  unfold zip_xrange. rewrite zip_xrange_from. reflexivity.
Qed.

(** The plot calls of an initial part of the files come first. *)
Lemma plot_calls_app (sid did : string) (l1 l2 : list string) (f : string) :
  exists tl,
    plot_calls sid did (l1 ++ f :: l2)
    = (plot_calls sid did l1
       ++ Plot_spm_motion_parameters f (plot_title sid (List.length l1) did)
       :: tl)%list.
Proof.
  unfold plot_calls. rewrite zip_xrange_app, map_app. simpl.
  eexists. reflexivity.
Qed.

Lemma plot_loop_ok (sid did : string) (rp : list string) (st st' : state W) :
  plot_loop C sid did rp st = (st', inr tt) ->
  calls st' = (calls st ++ plot_calls sid did rp)%list.
Proof.
  unfold plot_loop, plot_calls. intro H.
  exact (for_list_invoke_ok
           (fun p => Plot_spm_motion_parameters (snd p)
                       (plot_title sid (fst p) did))
           (fun p => plot_spm_motion_parameters C (snd p)
                       (plot_title sid (fst p) did)) _ _ _ H).
Qed.

Lemma plot_loop_stops (sid did : string) (l1 l2 : list string) (f : string)
    (st st4 : state W) (w5 : W) (err : exn) :
  plot_loop C sid did l1 st = (st4, inr tt) ->
  plot_spm_motion_parameters C f (plot_title sid (List.length l1) did)
    (world st4) = (w5, inl err) ->
  plot_loop C sid did (l1 ++ f :: l2) st
  = (mkState w5
       (calls st ++ plot_calls sid did l1
          ++ [Plot_spm_motion_parameters f
                (plot_title sid (List.length l1) did)]),
     inl err).
Proof.
  intros H1 H2. pose proof (plot_loop_ok _ _ _ _ _ H1) as Hc.
  unfold plot_loop in *. rewrite zip_xrange_app.
  erewrite for_list_stops; [| exact H1 | apply invoke_eq; exact H2].
  cbn [fst snd]. now rewrite Hc, <- app_assoc.
Qed.

Ltac step_ok :=
  erewrite bind_ok
    by first [reflexivity | apply invoke_eq; cbn [world]; eassumption].

Ltac step_raise :=
  erewrite bind_raise
    by first [apply invoke_eq; cbn [world]; eassumption | eassumption].

(** The pipeline of one subject when [fit] raises. *)
Lemma subject_body_fit_raises (id : string) (kw : kwargs) (s : SubjectData)
    (st : state W) (w1 w2 : W) (e0 : E) (err : exn) :
  mc_init C kw (world st) = (w1, inr e0) ->
  mc_fit C e0 (func s) w1 = (w2, inl err) ->
  subject_body C id kw s st
  = (mkState w2 (calls st ++ firstn 3 (engine_calls id kw s)), inl err).
Proof.
  intros Hi Hf. unfold subject_body.
  step_ok. step_ok. step_raise.
  cbn [calls firstn engine_calls]. now rewrite <- !app_assoc.
Qed.

(** The pipeline of one subject when [transform] raises. *)
Lemma subject_body_transform_raises (id : string) (kw : kwargs)
    (s : SubjectData) (st : state W) (w1 w2 w3 : W) (e0 e1 : E) (err : exn) :
  mc_init C kw (world st) = (w1, inr e0) ->
  mc_fit C e0 (func s) w1 = (w2, inr e1) ->
  mc_transform C e1 (output_dir s) true true w2 = (w3, inl err) ->
  subject_body C id kw s st
  = (mkState w3 (calls st ++ engine_calls id kw s), inl err).
Proof.
  intros Hi Hf Ht. unfold subject_body.
  step_ok. step_ok. step_ok. step_raise.
  cbn [calls engine_calls]. now rewrite <- !app_assoc.
Qed.

(** The pipeline of one subject when the plot of a parameter file raises,
    the plots of the files before it having returned. *)
Lemma subject_body_plot_raises (id : string) (kw : kwargs) (s : SubjectData)
    (st st4 : state W) (w1 w2 w3 w5 : W) (e0 e1 e2 : E)
    (l1 l2 : list string) (f : string) (err : exn) :
  mc_init C kw (world st) = (w1, inr e0) ->
  mc_fit C e0 (func s) w1 = (w2, inr e1) ->
  mc_transform C e1 (output_dir s) true true w2 = (w3, inr e2) ->
  mc_rp_filenames C e2 = (l1 ++ f :: l2)%list ->
  plot_loop C (subject_id s) id l1
    (mkState w3 (calls st ++ engine_calls id kw s)) = (st4, inr tt) ->
  plot_spm_motion_parameters C f
    (plot_title (subject_id s) (List.length l1) id) (world st4)
  = (w5, inl err) ->
  subject_body C id kw s st
  = (mkState w5
       (calls st ++ engine_calls id kw s
          ++ plot_calls (subject_id s) id l1
          ++ [Plot_spm_motion_parameters f
                (plot_title (subject_id s) (List.length l1) id)]),
     inl err).
Proof.
  intros Hi Hf Ht Hrp Hl Hp. unfold subject_body.
  step_ok. step_ok. step_ok. step_ok. rewrite Hrp.
  cbn [calls]. rewrite <- !app_assoc. cbn [app].
  change (calls st ++ [Print (banner (subject_id s) id);
                       MRIMotionCorrection kw; Fit (func s);
                       Transform (output_dir s) true true])%list
    with (calls st ++ engine_calls id kw s)%list.
  erewrite bind_raise; [| eapply plot_loop_stops; eassumption].
  cbn [calls]. now rewrite <- !app_assoc.
Qed.

(** The pipeline of one subject when it returns. *)
Lemma subject_body_returns (id : string) (kw : kwargs) (s : SubjectData)
    (st st' : state W) :
  subject_body C id kw s st = (st', inr tt) ->
  exists (w1 w2 w3 : W) (e0 e1 e2 : E),
    mc_init C kw (world st) = (w1, inr e0)
    /\ mc_fit C e0 (func s) w1 = (w2, inr e1)
    /\ mc_transform C e1 (output_dir s) true true w2 = (w3, inr e2)
    /\ calls st'
       = (calls st ++ subject_calls id kw s (mc_rp_filenames C e2))%list.
Proof.
  intro H. unfold subject_body, bind, print, invoke in H.
  cbn [world calls] in H.
  destruct (mc_init C kw (world st)) as [w1 [err|e0]] eqn:Hi;
    cbv beta iota in H; cbn [world calls] in H; [discriminate H |].
  destruct (mc_fit C e0 (func s) w1) as [w2 [err|e1]] eqn:Hf;
    cbv beta iota in H; cbn [world calls] in H; [discriminate H |].
  destruct (mc_transform C e1 (output_dir s) true true w2)
    as [w3 [err|e2]] eqn:Ht; cbv beta iota in H; cbn [world calls] in H; [discriminate H |].
  destruct (plot_loop C (subject_id s) id (mc_rp_filenames C e2) _)
    as [st4 [err|[]]] eqn:Hl; cbv beta iota in H; cbn [world calls] in H; [discriminate H |].
  destruct (plt_show C (world st4)) as [w5 [err|[]]];
    cbv beta iota in H; cbn [world calls] in H; [discriminate H |].
  inversion H; subst. clear H.
  exists w1, w2, w3, e0, e1, e2. repeat split; try assumption.
  apply plot_loop_ok in Hl. cbn [calls] in *. rewrite Hl.
  unfold subject_calls, engine_calls. rewrite <- !app_assoc. reflexivity.
Qed.

Lemma for_gen_list {A : Type} (body : A -> M W unit) (l : list A)
    (st : state W) :
  for_gen (yields l Exhausted) body st = for_list l body st.
Proof.
  revert st. induction l as [|a l IH]; intro st; [reflexivity |].
  cbn [yields for_gen for_list]. unfold bind.
  destruct (body a st) as [st' [e|[]]]; [reflexivity | apply IH].
Qed.



End RunnerFacts.

(** ** Claims on the runner *)

Section RunnerClaims.
Context {W E : Type}.
Variable C : collaborators W E.

(** The plot loop, when it returns, has called the plot once per file, in
    order, each call on the world the one before it left. *)
Lemma plot_rounds_return (sid did : string) (rp : list string) (a : nat)
    (st st' : state W) :
  for_list (combine (seq a (List.length rp)) rp)
    (fun p =>
       let rp_filename := snd p in
       let title := plot_title sid (fst p) did in
       invoke (Plot_spm_motion_parameters rp_filename title)
         (plot_spm_motion_parameters C rp_filename title)) st
  = (st', inr tt) ->
  renders_in_order C sid did a rp (world st) (world st')
  /\ calls st' = (calls st ++ render_calls sid did a rp)%list.
Proof.
  revert a st. induction rp as [|f rp IH]; intros a st H.
  - inversion H; subst. split; [constructor | cbn; now rewrite app_nil_r].
  - cbn [List.length seq combine for_list] in H. unfold bind in H.
    cbn [fst snd] in H. unfold invoke at 1 in H.
    destruct (plot_spm_motion_parameters C f (plot_title sid a did) (world st))
      as [w1 [e|[]]] eqn:Hp; [discriminate H |].
    apply IH in H. cbn [world calls] in H. destruct H as [H1 H2]. split.
    + econstructor; [exact Hp | exact H1].
    + rewrite H2. cbn [render_calls]. now rewrite <- app_assoc.
Qed.

Lemma plot_loop_renders (sid did : string) (rp : list string)
    (st st' : state W) :
  plot_loop C sid did rp st = (st', inr tt) ->
  renders_in_order C sid did 0 rp (world st) (world st')
  /\ calls st' = (calls st ++ render_calls sid did 0 rp)%list.
Proof. apply plot_rounds_return. Qed.

(** The pipeline of one subject, when it returns, went call by call. *)
Lemma subject_body_done (id : string) (kw : kwargs) (s : SubjectData)
    (st st' : state W) :
  subject_body C id kw s st = (st', inr tt) ->
  subject_done C id kw s st st'.
Proof.
  intro H. unfold subject_body, bind, print, invoke in H.
  cbn [world calls] in H.
  destruct (mc_init C kw (world st)) as [w1 [err|e0]] eqn:Hi;
    cbv beta iota in H; cbn [world calls] in H; [discriminate H |].
  destruct (mc_fit C e0 (func s) w1) as [w2 [err|e1]] eqn:Hf;
    cbv beta iota in H; cbn [world calls] in H; [discriminate H |].
  destruct (mc_transform C e1 (output_dir s) true true w2)
    as [w3 [err|e2]] eqn:Ht;
    cbv beta iota in H; cbn [world calls] in H; [discriminate H |].
  destruct (plot_loop C (subject_id s) id (mc_rp_filenames C e2) _)
    as [st4 [err|[]]] eqn:Hl;
    cbv beta iota in H; cbn [world calls] in H; [discriminate H |].
  destruct (plt_show C (world st4)) as [w5 [err|[]]] eqn:Hs;
    cbv beta iota in H; cbn [world calls] in H; [discriminate H |].
  apply plot_loop_renders in Hl. cbn [world calls] in Hl.
  destruct Hl as [Hr Hc].
  apply (subject_done_intro C id kw s st st' w1 w2 w3 (world st4) w5 e0 e1 e2);
    try assumption.
  inversion H; subst. rewrite Hc. f_equal.
  now rewrite <- !app_assoc.
Qed.

(** C3. A run that returns has consumed the whole sequence and has gone
    through the subjects in the order of the sequence; for each one it
    built the engine, called [fit] once on that engine, then [transform]
    once on the fitted engine, then the plot once per parameter file that
    this [transform] left, in the order of those files and numbered from
    0, each call on the world the call before it left, then the display;
    the log holds these calls and no other. *)
Theorem runner_call_sequence (subjects : generator SubjectData)
    (dataset_id : string) (kw : kwargs) (st st' : state W) :
  _demo_runner C subjects dataset_id kw st = (st', inr tt) ->
  ending subjects = None
  /\ subjects_done C dataset_id kw (yielded subjects) st st'.
Proof.
  unfold _demo_runner. revert st.
  induction subjects as [|s rest IH|e]; intros st H.
  - inversion H; subst. split; [reflexivity | constructor].
  - cbn [for_gen] in H. unfold bind in H.
    destruct (subject_body C dataset_id kw s st) as [st1 [e|[]]] eqn:Hs;
      [discriminate H |].
    apply subject_body_done in Hs. destruct (IH _ H) as [Hend Hrest].
    split; [exact Hend |]. cbn [yielded].
    econstructor; [exact Hs | exact Hrest].
  - discriminate H.
Qed.

(** C4. Once the subjects before [s] are done, a failure in the pipeline of
    [s] is the outcome of the whole run: the run ends in the state of the
    failure, with the same exception, whatever follows [s] in the sequence.
    When [fit], [transform] or a plot raises, the call that raised is the
    last one made. An exception of the generator itself ends the run in
    the same way. *)
Theorem runner_aborts_on_failure (pre : list SubjectData) (s : SubjectData)
    (rest : generator SubjectData) (dataset_id : string) (kw : kwargs)
    (st st1 : state W) :
  _demo_runner C (yields pre Exhausted) dataset_id kw st = (st1, inr tt) ->
  (forall st2 err,
     subject_body C dataset_id kw s st1 = (st2, inl err) ->
     _demo_runner C (yields pre (Yield s rest)) dataset_id kw st
     = (st2, inl err))
  /\ (forall w1 w2 e0 err,
        mc_init C kw (world st1) = (w1, inr e0) ->
        mc_fit C e0 (func s) w1 = (w2, inl err) ->
        _demo_runner C (yields pre (Yield s rest)) dataset_id kw st
        = (mkState w2 (calls st1 ++ firstn 3 (engine_calls dataset_id kw s)),
           inl err))
  /\ (forall w1 w2 w3 e0 e1 err,
        mc_init C kw (world st1) = (w1, inr e0) ->
        mc_fit C e0 (func s) w1 = (w2, inr e1) ->
        mc_transform C e1 (output_dir s) true true w2 = (w3, inl err) ->
        _demo_runner C (yields pre (Yield s rest)) dataset_id kw st
        = (mkState w3 (calls st1 ++ engine_calls dataset_id kw s), inl err))
  /\ (forall w1 w2 w3 w5 e0 e1 e2 l1 l2 f st4 err,
        mc_init C kw (world st1) = (w1, inr e0) ->
        mc_fit C e0 (func s) w1 = (w2, inr e1) ->
        mc_transform C e1 (output_dir s) true true w2 = (w3, inr e2) ->
        mc_rp_filenames C e2 = (l1 ++ f :: l2)%list ->
        plot_loop C (subject_id s) dataset_id l1
          (mkState w3 (calls st1 ++ engine_calls dataset_id kw s))
        = (st4, inr tt) ->
        plot_spm_motion_parameters C f
          (plot_title (subject_id s) (List.length l1) dataset_id) (world st4)
        = (w5, inl err) ->
        _demo_runner C (yields pre (Yield s rest)) dataset_id kw st
        = (mkState w5
             (calls st1 ++ engine_calls dataset_id kw s
                ++ plot_calls (subject_id s) dataset_id l1
                ++ [Plot_spm_motion_parameters f
                      (plot_title (subject_id s) (List.length l1) dataset_id)]),
           inl err))
  /\ (forall err,
        _demo_runner C (yields pre (Raises err)) dataset_id kw st
        = (st1, inl err)).
Proof.
  unfold _demo_runner. rewrite for_gen_list. intro Hpre.
  assert (G : forall st2 err,
             subject_body C dataset_id kw s st1 = (st2, inl err) ->
             for_gen (yields pre (Yield s rest)) (subject_body C dataset_id kw) st
             = (st2, inl err)).
  { intros st2 err Hs. rewrite (for_gen_yields _ _ _ _ _ Hpre).
    cbn [for_gen]. now apply bind_raise. }
  split; [exact G |]. repeat split.
  - intros. apply G. eapply subject_body_fit_raises; eassumption.
  - intros. apply G. eapply subject_body_transform_raises; eassumption.
  - intros. apply G. eapply subject_body_plot_raises; eassumption.
  - intro err. now rewrite (for_gen_yields _ _ _ _ _ Hpre).
Qed.


(** C8. On an exhausted sequence the runner returns at once, in the state
    it started in: no call, no exception. A session that no path of the
    listing is tagged with gives such a sequence. *)
Theorem runner_empty_sequence (O : SetOrder) (dataset_id : string)
    (kw : kwargs) (st : state W) (nyu_func : list string) (out : string)
    (session : Z) :
  _demo_runner C Exhausted dataset_id kw st = (st, inr tt)
  /\ (demo_nyu_rest.session_func nyu_func session = [] ->
      demo_nyu_rest.subject_factory nyu_func out session = Exhausted
      /\ _demo_runner C (demo_nyu_rest.subject_factory nyu_func out session)
           dataset_id kw st = (st, inr tt)).
Proof.
  split; [reflexivity |]. intro H.
  rewrite (subject_factory_no_path O _ out _ H). split; reflexivity.
Qed.

End RunnerClaims.

(** ** Witnesses on the toy engine *)

(** The witness of C3: the two subjects of the dataset's layout. *)
Lemma runner_call_sequence_witness :
  _demo_runner toy dataset_subjects "NYU resting state" [] start
  = (dataset_done, inr tt)
  /\ ending dataset_subjects = None
  /\ subjects_done toy "NYU resting state" [] (yielded dataset_subjects)
       start dataset_done.
Proof.
  split; [vm_compute; reflexivity |].
  apply (runner_call_sequence toy dataset_subjects "NYU resting state" []
           start dataset_done).
  vm_compute. reflexivity.
Defined.

(** The witness of C4: after one good subject, a subject whose [fit] raises,
    one whose [transform] raises, and one whose second plot raises; a good
    subject follows each and is never reached. *)
Lemma runner_aborts_on_failure_witness :
  _demo_runner toy (yields [good_subject] Exhausted) "toy" [] start
  = (after_good, inr tt)
  /\ _demo_runner toy
       (yields [good_subject] (Yield unfit_subject (Yield good_subject Exhausted)))
       "toy" [] start
     = (mkState 2 (calls after_good
                     ++ firstn 3 (engine_calls "toy" [] unfit_subject)),
        inl (Raised "fit: no input"))
  /\ _demo_runner toy
       (yields [good_subject]
          (Yield homeless_subject (Yield good_subject Exhausted)))
       "toy" [] start
     = (mkState 2 (calls after_good ++ engine_calls "toy" [] homeless_subject),
        inl (Raised "transform: no output_dir"))
  /\ _demo_runner toy
       (yields [good_subject]
          (Yield corrupt_subject (Yield good_subject Exhausted)))
       "toy" [] start
     = (mkState 3
          (calls after_good ++ engine_calls "toy" [] corrupt_subject
             ++ plot_calls "s4" "toy" ["/out/s4/rp_run1.nii"]
             ++ [Plot_spm_motion_parameters "/out/s4/rp_corrupt.nii"
                   (plot_title "s4" 1 "toy")]),
        inl (Raised "plot: unreadable")).
Proof.
  split; [reflexivity |]. split; [| split].
  - eapply (proj1 (proj2 (runner_aborts_on_failure toy [good_subject]
                            unfit_subject (Yield good_subject Exhausted)
                            "toy" [] start after_good eq_refl)));
      reflexivity.
  - eapply (proj1 (proj2 (proj2 (runner_aborts_on_failure toy [good_subject]
                            homeless_subject (Yield good_subject Exhausted)
                            "toy" [] start after_good eq_refl))));
      reflexivity.
  - eapply (proj1 (proj2 (proj2 (proj2 (runner_aborts_on_failure toy
                            [good_subject] corrupt_subject
                            (Yield good_subject Exhausted)
                            "toy" [] start after_good eq_refl)))))
      with (l1 := ["/out/s4/rp_run1.nii"]) (l2 := ["/out/s4/rp_run3.nii"]);
      reflexivity.
Defined.

(** The witness of C8: the dataset's layout has no path of session 2. *)
Lemma runner_empty_sequence_witness :
  demo_nyu_rest.session_func dataset_listing 2 = []
  /\ _demo_runner toy
       (@demo_nyu_rest.subject_factory last_seen dataset_listing "/out" 2)
       "NYU resting state" [] start
     = (start, inr tt).
Proof.
  split; [reflexivity |].
  apply (runner_empty_sequence toy last_seen "NYU resting state" [] start
           dataset_listing "/out" 2%Z).
  reflexivity.
Defined.

(** * Further properties *)

(** ** Separators in names *)

Section SeparatorFacts.
Import Py posixpath.

Lemma str_in_sep_cons (c : ascii) (s : string) :
  str_in "/" (String c s) = (Ascii.eqb c "/" || str_in "/" s)%bool.
Proof.
  cbn [str_in]. unfold startswith. cbn [String.prefix].
  destruct (ascii_dec "/" c) as [<-|Hc].
  - destruct s; reflexivity.
  - assert (Ascii.eqb c "/" = false) as ->
      by (apply Ascii.eqb_neq; congruence).
    reflexivity.
Qed.

Lemma str_in_sep_append (a b : string) :
  str_in "/" (a ++ b) = (str_in "/" a || str_in "/" b)%bool.
Proof.
  induction a as [|c a IH]; [reflexivity |].
  cbn [append]. rewrite !str_in_sep_cons, IH. now rewrite orb_assoc.
Qed.

Lemma slice_from_no_sep (k : nat) (s : string) :
  str_in "/" s = false -> str_in "/" (slice_from k s) = false.
Proof.
  revert k. induction s as [|c s IH]; intros [|k] H; try exact H.
  cbn [slice_from]. apply IH. rewrite str_in_sep_cons in H.
  now apply orb_false_iff in H.
Qed.

Lemma slice_from_0 (s : string) : slice_from 0 s = s.
Proof. destruct s; reflexivity. Qed.

(** A base name holds no separator. *)
Lemma basename_no_sep (p : string) : str_in "/" (basename p) = false.
Proof.
  unfold basename. induction p as [|a p IH]; [reflexivity |].
  cbn [rfind_succ]. destruct (rfind_succ sep p) as [|k].
  - cbn [slice_from] in IH. destruct (Ascii.eqb a sep) eqn:Ha.
    + cbn [slice_from]. exact IH.
    + cbn [slice_from]. rewrite str_in_sep_cons, IH.
      unfold sep in Ha. now rewrite Ha.
  - exact IH.
Qed.

Lemma startswith_no_sep (s : string) :
  str_in "/" s = false -> startswith "/" s = false.
Proof.
  intro H. destruct (startswith "/" s) eqn:Hs; [| reflexivity].
  apply str_in_here in Hs. congruence.
Qed.

Lemma endswith_no_sep (a b : string) :
  b <> "" -> str_in "/" b = false -> endswith "/" (a ++ b) = false.
Proof.
  intros Hb Hs. rewrite endswith_append
    by (destruct b; [congruence | simpl; lia]).
  unfold endswith.
  destruct (Nat.leb (String.length "/") (String.length b)); [| reflexivity].
  apply String.eqb_neq. intro H.
  pose proof (slice_from_no_sep (String.length b - String.length "/") b Hs) as N.
  rewrite H in N. discriminate N.
Qed.

Lemma uint_no_sep (d : Decimal.uint) :
  str_in "/" (NilEmpty.string_of_uint d) = false.
Proof.
  induction d; cbn [NilEmpty.string_of_uint];
    [reflexivity | rewrite str_in_sep_cons, IHd; reflexivity ..].
Qed.

Lemma nilzero_uint_no_sep (d : Decimal.uint) :
  str_in "/" (NilZero.string_of_uint d) = false.
Proof.
  destruct d; [reflexivity | apply (uint_no_sep (_ d)) ..].
Qed.

(** The decimal form of an integer holds no separator. *)
Lemma format_i_no_sep (n : Z) : str_in "/" (format_i n) = false.
Proof.
  unfold format_i, NilZero.string_of_int.
  destruct (Z.to_int n) as [d|d].
  - apply nilzero_uint_no_sep.
  - rewrite str_in_sep_cons, nilzero_uint_no_sep. reflexivity.
Qed.

Lemma to_int_not_nil (n : Z) :
  Z.to_int n <> Decimal.Pos Decimal.Nil /\ Z.to_int n <> Decimal.Neg Decimal.Nil.
Proof.
  destruct n as [|p|p]; cbn; split; try discriminate;
    intro H; injection H as H; now apply DecimalPos.Unsigned.to_uint_nonnil in H.
Qed.

(** Two integers with the same decimal form are equal. *)
Lemma format_i_inj (a b : Z) : format_i a = format_i b -> a = b.
Proof.
  unfold format_i. intro H. apply DecimalZ.to_int_inj.
  destruct (to_int_not_nil a) as [A1 A2], (to_int_not_nil b) as [B1 B2].
  pose proof (NilZero.isi _ A1 A2) as Ia.
  pose proof (NilZero.isi _ B1 B2) as Ib.
  rewrite H in Ia. congruence.
Qed.

Lemma append_inv_head (a b c : string) : a ++ b = a ++ c -> b = c.
Proof.
  induction a as [|x a IH]; cbn [append]; intro H; [exact H |].
  injection H as H. now apply IH.
Qed.

(** Two names cut at their first separator: the parts before it agree, and
    the parts after it. *)
Lemma split_at_sep (a b x y : string) :
  str_in "/" a = false -> str_in "/" b = false ->
  a ++ "/" ++ x = b ++ "/" ++ y -> a = b /\ x = y.
Proof.
  revert b. induction a as [|c a IH]; intros [|d b] Ha Hb H.
  - cbn in H. injection H as H. now split.
  - cbn in H. injection H as H1 _. rewrite str_in_sep_cons, <- H1 in Hb.
    discriminate Hb.
  - cbn in H. injection H as H1 _. rewrite str_in_sep_cons, H1 in Ha.
    discriminate Ha.
  - cbn [append] in H. injection H as H1 H2.
    rewrite str_in_sep_cons in Ha, Hb.
    apply orb_false_iff in Ha, Hb.
    destruct (IH b (proj2 Ha) (proj2 Hb) H2) as [-> ->]. now subst.
Qed.

Lemma join_step_relative (out name : string) :
  str_in "/" name = false ->
  join_step out name = with_sep out ++ name.
Proof.
  intro H. unfold join_step, with_sep.
  rewrite (startswith_no_sep _ H).
  destruct (String.eqb out "" || endswith "/" out)%bool;
    [reflexivity | now rewrite append_assoc].
Qed.

Lemma with_sep_closed (a b : string) :
  b <> "" -> str_in "/" b = false -> with_sep (a ++ b) = a ++ b ++ "/".
Proof.
  intros Hb Hs. unfold with_sep.
  rewrite (endswith_no_sep a b Hb Hs).
  destruct b as [|c b]; [congruence |].
  rewrite append_cons_not_empty. cbn [orb]. now rewrite append_assoc.
Qed.

(** [join(out, name1, name2)] for two names without separator, the first
    not empty. *)
Lemma join_two_names (out name1 name2 : string) :
  name1 <> "" -> str_in "/" name1 = false -> str_in "/" name2 = false ->
  join out [name1; name2] = with_sep out ++ name1 ++ "/" ++ name2.
Proof.
  intros H0 H1 H2. unfold join. cbn [fold_left].
  rewrite (join_step_relative out name1 H1).
  rewrite (join_step_relative _ name2 H2).
  rewrite (with_sep_closed _ _ H0 H1). now rewrite !append_assoc.
Qed.

Lemma session_marker_name (session : Z) :
  demo_nyu_rest.session_marker session <> ""
  /\ str_in "/" (demo_nyu_rest.session_marker session) = false.
Proof.
  unfold demo_nyu_rest.session_marker. split; [discriminate |].
  rewrite str_in_sep_append, format_i_no_sep. reflexivity.
Qed.

Lemma session_marker_inj (a b : Z) :
  demo_nyu_rest.session_marker a = demo_nyu_rest.session_marker b -> a = b.
Proof.
  unfold demo_nyu_rest.session_marker. intro H.
  apply append_inv_head in H. now apply format_i_inj.
Qed.

End SeparatorFacts.

(** ** The records of the session-tagged factory *)

Section RecordFacts.
Import Py posixpath demo_nyu_rest.

Lemma NoDup_map_inj_on {A B : Type} (f : A -> B) (l : list A) :
  (forall a b, In a l -> In b l -> f a = f b -> a = b) ->
  NoDup l -> NoDup (map f l).
Proof.
  intros Hf H. induction H as [|a l Ha Hl IH]; [constructor |].
  cbn [map]. constructor.
  - intro Hin. apply in_map_iff in Hin. destruct Hin as (b & Hb & Hbl).
    apply Ha. rewrite <- (Hf b a); [exact Hbl | now right | now left | exact Hb].
  - apply IH. intros x y Hx Hy. apply Hf; now right.
Qed.

(** The loop yields the records of an initial part of the identifiers. *)
Lemma subject_loop_prefix (sf : list string) (out : string) (session : Z)
    (ids : list string) :
  exists pre post,
    ids = (pre ++ post)%list
    /\ yielded (subject_loop sf out session ids)
       = map (record_of sf out session) pre.
Proof.
  induction ids as [|id ids (pre & post & H1 & H2)].
  - exists [], []. split; reflexivity.
  - destruct (Nat.eq_dec (List.length (matching sf id)) 1) as [H|H].
    + rewrite subject_loop_one by exact H.
      exists (id :: pre), post. cbn. now rewrite H1 at 1; rewrite H2.
    + rewrite subject_loop_other by exact H.
      exists [], (id :: ids). split; reflexivity.
Qed.

(** What is known of a yielded record: its identifier is derived from the
    path it carries, the one path of the session that contains it. *)
Lemma yielded_record (O : SetOrder) (nyu_func : list string) (out : string)
    (session : Z) (r : SubjectData) :
  In r (yielded (subject_factory nyu_func out session)) ->
  exists x,
    r = record_of (session_func nyu_func session) out session (subject_of x)
    /\ In x (session_func nyu_func session)
    /\ matching (session_func nyu_func session) (subject_of x) = [x].
Proof.
  unfold subject_factory. intro H.
  apply subject_loop_yielded in H. destruct H as (id & H1 & H2 & ->).
  apply (proj1 (set_iter_In _ _)) in H1.
  destruct (derived_matches _ _ _ H1) as (x & Hx & -> & Hm).
  exists x. repeat split; try assumption.
  rewrite (length_one_hd _ H2) in Hm |- *.
  destruct Hm as [->|[]]. reflexivity.
Qed.

Lemma subject_of_no_sep (x : string) : str_in "/" (subject_of x) = false.
Proof. apply basename_no_sep. Qed.

Lemma record_output_dir (sf : list string) (out : string) (session : Z)
    (x : string) :
  output_dir (record_of sf out session (subject_of x))
  = with_sep out ++ session_marker session ++ "/" ++ subject_of x.
Proof.
  destruct (session_marker_name session) as [H0 H1].
  cbn [record_of output_dir].
  apply join_two_names; [exact H0 | exact H1 | apply subject_of_no_sep].
Qed.

Lemma yielded_ids_NoDup (O : SetOrder) (nyu_func : list string)
    (out : string) (session : Z) :
  NoDup (map subject_id (yielded (subject_factory nyu_func out session))).
Proof.
  unfold subject_factory.
  destruct (subject_loop_prefix (session_func nyu_func session) out session
              (set_iter (subject_ids nyu_func session)))
    as (pre & post & H1 & H2).
  rewrite H2, map_map. cbn [record_of subject_id]. rewrite map_id.
  pose proof (set_iter_NoDup (subject_ids nyu_func session)) as N.
  rewrite H1 in N. now apply NoDup_app_remove_r in N.
Qed.

(** X1. The identifiers of the records yielded are pairwise distinct,
    whether the factory runs to exhaustion or fails on the way; so are the
    records themselves. *)
Theorem nyu_subject_ids_distinct (O : SetOrder) (nyu_func : list string)
    (out : string) (session : Z) :
  NoDup (map subject_id (yielded (subject_factory nyu_func out session)))
  /\ NoDup (yielded (subject_factory nyu_func out session)).
Proof.
  split; [apply yielded_ids_NoDup |].
  exact (NoDup_map_inv _ _ (yielded_ids_NoDup O nyu_func out session)).
Qed.

(** X2. A yielded record carries a path of the listing that is tagged with
    the requested session, and its identifier is the name of the directory
    two levels above that very path: a name without separator. *)
Theorem nyu_record_is_consistent (O : SetOrder) (nyu_func : list string)
    (out : string) (session : Z) (r : SubjectData) :
  In r (yielded (subject_factory nyu_func out session)) ->
  exists x,
    func r = FuncPath x
    /\ In x nyu_func
    /\ str_in (session_marker session) x = true
    /\ subject_id r = subject_of x
    /\ str_in "/" (subject_id r) = false.
Proof.
  intro H. destruct (yielded_record _ _ _ _ _ H) as (x & -> & Hx & Hm).
  exists x. cbn [record_of func subject_id]. rewrite Hm.
  apply session_func_In in Hx. destruct Hx as [Hx1 Hx2].
  repeat split; try assumption. apply subject_of_no_sep.
Qed.

(** X3. The output directory of a yielded record is the base directory,
    the session marker and the identifier, one separator between each; the
    base directory is taken as it is when it is empty or ends in a
    separator. *)
Theorem nyu_output_dir_shape (O : SetOrder) (nyu_func : list string)
    (out : string) (session : Z) (r : SubjectData) :
  In r (yielded (subject_factory nyu_func out session)) ->
  output_dir r
  = with_sep out ++ session_marker session ++ "/" ++ subject_id r.
Proof.
  intro H. destruct (yielded_record _ _ _ _ _ H) as (x & -> & _ & _).
  apply record_output_dir.
Qed.

(** X4. No two records of one invocation share an output directory. *)
Theorem nyu_output_dirs_distinct (O : SetOrder) (nyu_func : list string)
    (out : string) (session : Z) :
  NoDup (map output_dir (yielded (subject_factory nyu_func out session))).
Proof.
  apply NoDup_map_inj_on.
  - intros r1 r2 H1 H2 Hd.
    destruct (yielded_record _ _ _ _ _ H1) as (x1 & -> & _ & _).
    destruct (yielded_record _ _ _ _ _ H2) as (x2 & -> & _ & _).
    rewrite !record_output_dir in Hd.
    apply append_inv_head, append_inv_head in Hd.
    injection Hd as Hd. now rewrite Hd.
  - exact (NoDup_map_inv _ _ (yielded_ids_NoDup O nyu_func out session)).
Qed.

(** X5. Over one listing and one base directory, the output directory
    tells the record: two records with the same output directory, from
    invocations for any two sessions, are the same record of the same
    session. *)
Theorem nyu_output_dir_identifies (O1 O2 : SetOrder) (nyu_func : list string)
    (out : string) (session1 session2 : Z) (r1 r2 : SubjectData) :
  In r1 (yielded (@subject_factory O1 nyu_func out session1)) ->
  In r2 (yielded (@subject_factory O2 nyu_func out session2)) ->
  output_dir r1 = output_dir r2 ->
  session1 = session2 /\ r1 = r2.
Proof.
  intros H1 H2 Hd.
  destruct (yielded_record _ _ _ _ _ H1) as (x1 & -> & _ & _).
  destruct (yielded_record _ _ _ _ _ H2) as (x2 & -> & _ & _).
  rewrite !record_output_dir in Hd. apply append_inv_head in Hd.
  destruct (session_marker_name session1) as [_ N1].
  destruct (session_marker_name session2) as [_ N2].
  destruct (split_at_sep _ _ _ _ N1 N2 Hd) as [Hm Hx].
  apply session_marker_inj in Hm. subst session2.
  split; [reflexivity | now rewrite Hx].
Qed.

(** The witness of X5: the record of "s1" in the dataset's layout, met
    under the two sample orders. *)
Lemma nyu_output_dir_identifies_witness :
  let r := mkSubjectData "s1" (FuncPath "/d/session1/s1/func/f.nii")
             "/out/session1/s1" in
  In r (yielded (@subject_factory last_seen dataset_listing "/out" 1))
  /\ In r (yielded (@subject_factory last_seen_rev dataset_listing "/out" 1))
  /\ 1%Z = 1%Z /\ r = r.
Proof.
  intro r.
  assert (H1 : In r (yielded (@subject_factory last_seen dataset_listing
                                "/out" 1))) by (left; reflexivity).
  assert (H2 : In r (yielded (@subject_factory last_seen_rev dataset_listing
                                "/out" 1))) by (right; left; reflexivity).
  split; [exact H1 |]. split; [exact H2 |].
  exact (nyu_output_dir_identifies last_seen last_seen_rev dataset_listing
           "/out" 1%Z 1%Z r r H1 H2 eq_refl).
Defined.

Lemma count_ids_le_matching (sf : list string) (id : string) :
  count_occ string_dec (map subject_of sf) id
  <= List.length (matching sf id).
Proof.
  unfold matching. induction sf as [|x sf IH]; [cbn; lia |].
  cbn [map count_occ filter].
  destruct (string_dec (subject_of x) id) as [<-|_].
  - rewrite subject_of_in. cbn [List.length]. lia.
  - destruct (str_in id x); cbn [List.length]; lia.
Qed.

(** When every identifier has one matching path, no two paths of the
    session give the same identifier. *)
Lemma unambiguous_ids_NoDup (sf : list string) :
  (forall id, In id (map subject_of sf) -> List.length (matching sf id) = 1) ->
  NoDup (map subject_of sf).
Proof.
  intro H. apply (NoDup_count_occ string_dec). intro id.
  destruct (in_dec string_dec id (map subject_of sf)) as [Hin|Hout].
  - rewrite <- (H id Hin). apply count_ids_le_matching.
  - apply (count_occ_not_In string_dec) in Hout. lia.
Qed.

(** X6. When the factory runs to exhaustion, the paths its records carry
    are the paths of the session, each once: no file of the session is left
    out and none is used twice. *)
Theorem nyu_every_path_used (O : SetOrder) (nyu_func : list string)
    (out : string) (session : Z) :
  ending (subject_factory nyu_func out session) = None ->
  Permutation (map func (yielded (subject_factory nyu_func out session)))
    (map FuncPath (session_func nyu_func session))
  /\ List.length (yielded (subject_factory nyu_func out session))
     = List.length (session_func nyu_func session).
Proof.
  intro E.
  set (sf := session_func nyu_func session).
  set (L := set_iter (subject_ids nyu_func session)).
  assert (U : forall id, In id (subject_ids nyu_func session) ->
                         List.length (matching sf id) = 1).
  { intros id Hid. unfold subject_factory in E. fold sf L in E.
    destruct (subject_loop_ending sf out session L) as [[F _]|[_ X]];
      [| congruence].
    rewrite Forall_forall in F. apply F. now apply set_iter_In. }
  assert (Y : yielded (subject_factory nyu_func out session)
              = map (record_of sf out session) L).
  { unfold subject_factory. fold sf L.
    rewrite subject_loop_all, yielded_yields; [cbn; now rewrite app_nil_r |].
    apply Forall_forall. intros id Hid. apply U.
    now apply (proj1 (set_iter_In _ _)). }
  assert (P : Permutation (map (fun id => hd "" (matching sf id)) L) sf).
  { apply NoDup_Permutation_bis.
    - apply NoDup_map_inj_on; [| apply set_iter_NoDup].
      intros a b Ha Hb Hab.
      apply (proj1 (set_iter_In _ _)) in Ha, Hb.
      destruct (derived_matches _ _ _ Ha) as (xa & _ & -> & Ma).
      destruct (derived_matches _ _ _ Hb) as (xb & _ & -> & Mb).
      fold sf in Ma, Mb.
      pose proof (U _ Ha) as Ua. pose proof (U _ Hb) as Ub.
      rewrite (length_one_hd _ Ua) in Ma. rewrite (length_one_hd _ Ub) in Mb.
      destruct Ma as [Ma|[]], Mb as [Mb|[]]. congruence.
    - rewrite length_map. unfold L. rewrite (set_iter_length O).
      rewrite nodup_fixed_point
        by (apply unambiguous_ids_NoDup; exact U).
      unfold subject_ids. fold sf. now rewrite length_map.
    - intros x Hx. apply in_map_iff in Hx. destruct Hx as (id & <- & Hid).
      apply (proj1 (set_iter_In _ _)) in Hid.
      assert (M : In (hd "" (matching sf id)) (matching sf id))
        by (rewrite (length_one_hd _ (U _ Hid)) at 2; now left).
      now apply matching_In in M. }
  rewrite Y. split.
  - rewrite map_map. cbn [record_of func].
    rewrite <- (map_map (fun id => hd "" (matching sf id)) FuncPath).
    now apply Permutation_map.
  - rewrite length_map. apply Permutation_length in P.
    now rewrite length_map in P.
Qed.

(** The witness of X6: the dataset's layout, session 1. *)
Lemma nyu_every_path_used_witness :
  ending (@subject_factory last_seen dataset_listing "/out" 1) = None
  /\ Permutation
       (map func (yielded (@subject_factory last_seen dataset_listing "/out" 1)))
       (map FuncPath (session_func dataset_listing 1))
  /\ List.length (yielded (@subject_factory last_seen dataset_listing "/out" 1))
     = List.length (session_func dataset_listing 1).
Proof.
  split; [reflexivity |].
  apply (nyu_every_path_used last_seen dataset_listing "/out" 1%Z).
  reflexivity.
Defined.

End RecordFacts.

(** ** The log of a run *)

Section LogFacts.
Context {W E : Type}.
Variable C : collaborators W E.

Lemma render_calls_nth (sid did : string) (a : nat) (rp : list string)
    (k : nat) :
  nth_error (render_calls sid did a rp) k
  = option_map (fun f => Plot_spm_motion_parameters f
                           (session_title sid (a + k) did))
      (nth_error rp k).
Proof.
  revert a k. induction rp as [|f rp IH]; intros a [|k]; cbn; try reflexivity.
  - now rewrite Nat.add_0_r.
  - rewrite IH. now rewrite Nat.add_succ_r.
Qed.

Lemma render_calls_length (sid did : string) (a : nat) (rp : list string) :
  List.length (render_calls sid did a rp) = List.length rp.
Proof.
  revert a. induction rp as [|f rp IH]; intro a; cbn; [reflexivity |].
  now rewrite IH.
Qed.

(** X7. The plot loop numbers the sessions from 0 in the order of the
    parameter files: when it returns, the calls it has added to the log are
    as many as the files, and the call at position k is the plot of the
    file at position k under the title that names session k. *)
Theorem plot_loop_numbered (subject_id dataset_id : string)
    (rp : list string) (st st' : state W) :
  plot_loop C subject_id dataset_id rp st = (st', inr tt) ->
  exists plots,
    calls st' = (calls st ++ plots)%list
    /\ List.length plots = List.length rp
    /\ forall k,
         nth_error plots k
         = option_map
             (fun f => Plot_spm_motion_parameters f
                         ("Estimated motion for " ++ subject_id
                            ++ " (session " ++ Py.format_i (Z.of_nat k)
                            ++ ") of '" ++ dataset_id ++ "'"))
             (nth_error rp k).
Proof.
  intro H. apply plot_loop_renders in H. destruct H as [_ H].
  exists (render_calls subject_id dataset_id 0 rp).
  split; [exact H |]. split; [apply render_calls_length |].
  intro k. exact (render_calls_nth subject_id dataset_id 0 rp k).
Qed.

Lemma for_list_invoke_prefix {A : Type} (callof : A -> call)
    (act : A -> W -> W * (exn + unit)) (l : list A) (st : state W) :
  exists m,
    m <= List.length l
    /\ calls (fst (for_list l (fun a => invoke (callof a) (act a)) st))
       = (calls st ++ firstn m (map callof l))%list.
Proof.
  revert st. induction l as [|a l IH]; intro st.
  - exists 0. cbn. split; [lia | now rewrite app_nil_r].
  - cbn [for_list]. unfold bind, invoke at 1.
    destruct (act a (world st)) as [w [e|[]]].
    + exists 1. cbn. split; [lia | reflexivity].
    + destruct (IH (mkState w (calls st ++ [callof a]))) as (m & Hm & H).
      exists (S m). split; [cbn; lia |]. rewrite H. cbn.
      now rewrite <- app_assoc.
Qed.

(** Whatever the collaborators do, the calls of one subject are an initial
    part of its pipeline. *)
Lemma subject_body_log_prefix (id : string) (kw : kwargs) (s : SubjectData)
    (st : state W) :
  exists rp n,
    calls (fst (subject_body C id kw s st))
    = (calls st ++ firstn n (subject_calls id kw s rp))%list.
Proof.
  unfold subject_body, bind, print, invoke. cbn [world calls].
  destruct (mc_init C kw (world st)) as [w1 [err|e0]];
    cbv beta iota; cbn [world calls fst].
  { exists [], 2. cbn. now rewrite <- !app_assoc. }
  destruct (mc_fit C e0 (func s) w1) as [w2 [err|e1]];
    cbv beta iota; cbn [world calls fst].
  { exists [], 3. cbn. now rewrite <- !app_assoc. }
  destruct (mc_transform C e1 (output_dir s) true true w2) as [w3 [err|e2]];
    cbv beta iota; cbn [world calls fst].
  { exists [], 4. cbn. now rewrite <- !app_assoc. }
  exists (mc_rp_filenames C e2).
  match goal with
  | |- context [plot_loop C ?a ?b ?c ?d] =>
      destruct (for_list_invoke_prefix
                  (fun p => Plot_spm_motion_parameters (snd p)
                              (plot_title a (fst p) b))
                  (fun p => plot_spm_motion_parameters C (snd p)
                              (plot_title a (fst p) b))
                  (zip_xrange c) d) as (m & Hm & Htl);
      fold (plot_loop C a b c) in Htl;
      fold (plot_calls a b c) in Htl;
      assert (Hm' : m <= List.length (plot_calls a b c))
        by (unfold plot_calls; now rewrite length_map);
      destruct (plot_loop C a b c d) as [st4 [err|[]]] eqn:Hl
  end; cbn [fst calls] in Htl.
  - exists (4 + m). cbn [fst]. rewrite Htl.
    unfold subject_calls, engine_calls. cbn [app Nat.add firstn].
    rewrite firstn_app.
    replace (m - List.length (plot_calls (subject_id s) id
                                (mc_rp_filenames C e2))) with 0 by lia.
    cbn [firstn]. rewrite app_nil_r. now rewrite <- !app_assoc.
  - apply plot_loop_ok in Hl. cbn [calls] in Hl.
    destruct (plt_show C (world st4)) as [w5 r]. cbn [fst calls].
    exists (List.length (subject_calls id kw s (mc_rp_filenames C e2))).
    rewrite firstn_all, Hl. unfold subject_calls, engine_calls.
    now rewrite <- !app_assoc.
Qed.

(** X8. Whatever the collaborators and the generator do, the calls of a
    run are the whole pipelines of the first subjects, in the order of the
    sequence, followed by an initial part of the pipeline of the next one,
    if any: no call is made out of order, none twice, none for a subject
    behind an unfinished one. *)
Theorem runner_log_shape (subjects : generator SubjectData)
    (dataset_id : string) (kw : kwargs) (st : state W) :
  exists (done : list (SubjectData * list string)) (post : list SubjectData)
         (partial : list call),
    yielded subjects = (map fst done ++ post)%list
    /\ calls (fst (_demo_runner C subjects dataset_id kw st))
       = (calls st
          ++ concat (map (fun p => subject_calls dataset_id kw (fst p) (snd p))
                       done)
          ++ partial)%list
    /\ match post with
       | [] => partial = []
       | s :: _ => exists rp n,
                     partial = firstn n (subject_calls dataset_id kw s rp)
       end.
Proof.
  unfold _demo_runner. revert st.
  induction subjects as [|s rest IH|e]; intro st.
  - exists [], [], []. cbn. now rewrite app_nil_r.
  - cbn [for_gen]. unfold bind.
    destruct (subject_body C dataset_id kw s st) as [st1 [e|[]]] eqn:Hs.
    + destruct (subject_body_log_prefix dataset_id kw s st) as (rp & n & H).
      rewrite Hs in H. cbn [fst] in *.
      exists [], (s :: yielded rest), (firstn n (subject_calls dataset_id kw s rp)).
      cbn. repeat split; [exact H | now exists rp, n].
    + apply subject_body_returns in Hs.
      destruct Hs as (w1 & w2 & w3 & e0 & e1 & e2 & _ & _ & _ & Hc).
      destruct (IH st1) as (done & post & partial & H1 & H2 & H3).
      exists ((s, mc_rp_filenames C e2) :: done), post, partial.
      cbn [map fst snd concat yielded app]. rewrite H1, H2, Hc.
      repeat split; [now rewrite <- !app_assoc | exact H3].
  - exists [], [], []. cbn. now rewrite app_nil_r.
Qed.

Lemma for_list_invoke_returns {A : Type} (callof : A -> call)
    (act : A -> W -> W * (exn + unit)) (l : list A) (st : state W) :
  (forall a w, exists w', act a w = (w', inr tt)) ->
  exists st', for_list l (fun a => invoke (callof a) (act a)) st = (st', inr tt).
Proof.
  intro H. revert st. induction l as [|a l IH]; intro st.
  - exists st. reflexivity.
  - cbn [for_list]. destruct (H a (world st)) as [w' Hw].
    erewrite bind_ok by (apply invoke_eq; exact Hw). apply IH.
Qed.

Ltac next_call :=
  erewrite bind_ok
    by first [reflexivity | apply invoke_eq; cbn [world]; eassumption].

(** With collaborators that never raise, the pipeline of a subject returns. *)
Lemma subject_body_calm (id : string) (kw : kwargs) (s : SubjectData)
    (st : state W) :
  never_raises C ->
  exists st', subject_body C id kw s st = (st', inr tt).
Proof.
  intros (Hi & Hf & Ht & Hp & Hs). unfold subject_body.
  destruct (Hi kw (world st)) as (w1 & e0 & Hi').
  next_call. next_call.
  destruct (Hf e0 (func s) w1) as (w2 & e1 & Hf').
  next_call.
  destruct (Ht e1 (output_dir s) true true w2) as (w3 & e2 & Ht').
  next_call.
  match goal with
  | |- context [plot_loop C ?a ?b ?c] =>
      match goal with
      | |- exists st', bind _ _ ?d = _ =>
          destruct (for_list_invoke_returns
                      (fun p => Plot_spm_motion_parameters (snd p)
                                  (plot_title a (fst p) b))
                      (fun p => plot_spm_motion_parameters C (snd p)
                                  (plot_title a (fst p) b))
                      (zip_xrange c) d
                      (fun p w => Hp (snd p) (plot_title a (fst p) b) w))
            as [st4 Hl];
          fold (plot_loop C a b c) in Hl
      end
  end.
  erewrite bind_ok by exact Hl.
  destruct (Hs (world st4)) as [w5 Hs'].
  eexists. apply invoke_eq. exact Hs'.
Qed.

(** X9. The runner raises nothing of its own: with collaborators that never
    raise, a run ends as the generator ends (returning when it is exhausted,
    raising its exception otherwise), after the whole pipeline of every
    subject the generator yielded. *)
Theorem runner_ends_as_generator (subjects : generator SubjectData)
    (dataset_id : string) (kw : kwargs) (st : state W) :
  never_raises C ->
  snd (_demo_runner C subjects dataset_id kw st)
  = match ending subjects with
    | None => inr tt
    | Some e => inl e
    end
  /\ exists rps : list (list string),
       List.length rps = List.length (yielded subjects)
       /\ calls (fst (_demo_runner C subjects dataset_id kw st))
          = (calls st
             ++ concat (map (fun p => subject_calls dataset_id kw (fst p) (snd p))
                          (combine (yielded subjects) rps)))%list.
Proof.
  intro N. unfold _demo_runner. revert st.
  induction subjects as [|s rest IH|e]; intro st.
  - split; [reflexivity |]. exists []. cbn. now rewrite app_nil_r.
  - cbn [for_gen]. destruct (subject_body_calm dataset_id kw s st N) as [st1 Hs].
    rewrite (bind_ok _ _ _ _ _ Hs).
    apply subject_body_returns in Hs.
    destruct Hs as (w1 & w2 & w3 & e0 & e1 & e2 & _ & _ & _ & Hc).
    destruct (IH st1) as (H1 & rps & H2 & H3).
    split; [exact H1 |].
    exists (mc_rp_filenames C e2 :: rps). split; [cbn; now rewrite H2 |].
    rewrite H3, Hc. cbn [yielded combine map concat fst snd].
    now rewrite <- app_assoc.
  - split; [reflexivity |]. exists []. cbn. now rewrite app_nil_r.
Qed.

End LogFacts.

(** ** The demo functions and the main block *)

Section ScriptFacts.
Context {W E : Type}.
Variable C : collaborators W E.
Variable F : fetchers W.

Lemma run_fetch_eq {A : Type} (f : W -> W * (exn + A)) (st : state W)
    (w : W) (r : exn + A) :
  f (world st) = (w, r) -> run_fetch f st = (mkState w (calls st), r).
Proof. intro H. unfold run_fetch. now rewrite H. Qed.

(** A demo that returns has fetched its data and run on it. *)
Lemma fetch_then_returns {A : Type} (f : W -> W * (exn + A))
    (k : A -> M W unit) (st st' : state W) :
  bind (run_fetch f) k st = (st', inr tt) ->
  exists w a, f (world st) = (w, inr a)
              /\ k a (mkState w (calls st)) = (st', inr tt).
Proof.
  unfold bind, run_fetch. destruct (f (world st)) as [w [e|a]]; intro H.
  - discriminate H.
  - exists w, a. now split.
Qed.

Lemma banners_app (a b : list call) :
  banners (a ++ b) = (banners a ++ banners b)%list.
Proof.
  induction a as [|c a IH]; [reflexivity |].
  destruct c; cbn; now rewrite IH.
Qed.

Lemma banners_plot_calls (sid did : string) (rp : list string) :
  banners (plot_calls sid did rp) = [].
Proof.
  unfold plot_calls. induction (zip_xrange rp) as [|p l IH]; [reflexivity |].
  exact IH.
Qed.

Lemma banners_subject_calls (did : string) (kw : kwargs) (s : SubjectData)
    (rp : list string) :
  banners (subject_calls did kw s rp) = [banner (subject_id s) did].
Proof.
  unfold subject_calls, engine_calls. cbn [app banners].
  now rewrite banners_app, banners_plot_calls.
Qed.

(** A run that returns has printed one banner per subject of the sequence,
    in order. *)
Lemma runner_banners (subjects : generator SubjectData) (did : string)
    (kw : kwargs) (st st' : state W) :
  _demo_runner C subjects did kw st = (st', inr tt) ->
  ending subjects = None
  /\ banners (calls st')
     = (banners (calls st)
        ++ map (fun s => banner (subject_id s) did) (yielded subjects))%list.
Proof.
  unfold _demo_runner. revert st.
  induction subjects as [|s rest IH|e]; intros st H.
  - inversion H; subst. split; [reflexivity | cbn; now rewrite app_nil_r].
  - cbn [for_gen] in H. unfold bind in H.
    destruct (subject_body C did kw s st) as [st1 [e|[]]] eqn:Hs;
      [discriminate H |].
    apply subject_body_returns in Hs.
    destruct Hs as (w1 & w2 & w3 & e0 & e1 & e2 & _ & _ & _ & Hc).
    destruct (IH _ H) as [H1 H2]. split; [exact H1 |].
    rewrite H2, Hc, banners_app, banners_subject_calls. cbn.
    now rewrite <- app_assoc.
  - discriminate H.
Qed.

Lemma factory_exhausted_yielded (O : SetOrder) (nyu_func : list string)
    (out : string) (session : Z) :
  ending (demo_nyu_rest.subject_factory nyu_func out session) = None ->
  yielded (demo_nyu_rest.subject_factory nyu_func out session)
  = map (record_of (demo_nyu_rest.session_func nyu_func session) out session)
      (set_iter (demo_nyu_rest.subject_ids nyu_func session)).
Proof.
  unfold demo_nyu_rest.subject_factory. intro H.
  destruct (subject_loop_ending (demo_nyu_rest.session_func nyu_func session)
              out session
              (set_iter (demo_nyu_rest.subject_ids nyu_func session)))
    as [[Fa _]|[_ X]]; [| congruence].
  rewrite (subject_loop_all _ _ _ _ Fa), yielded_yields. cbn.
  now rewrite app_nil_r.
Qed.

(** A demo whose fetch raises makes no call to the engine or to the plots:
    it ends with the exception of the fetch, in the world the fetch left. *)
Lemma demo_fetch_raises (O : SetOrder) (data_dir output_dir : string)
    (st : state W) (w : W) (err : exn) :
  (fetch_spm_auditory_data F data_dir (world st) = (w, inl err) ->
   script.demo_spm_auditory C F data_dir output_dir st
   = (mkState w (calls st), inl err))
  /\ (fetch_spm_multimodal_fmri_data F data_dir (world st) = (w, inl err) ->
      script.demo_spm_multimodal_fmri C F data_dir output_dir st
      = (mkState w (calls st), inl err))
  /\ (fetch_fsl_feeds_data F data_dir (world st) = (w, inl err) ->
      script.demo_fsl_feeds C F data_dir output_dir st
      = (mkState w (calls st), inl err))
  /\ (fetch_nyu_rest F data_dir (world st) = (w, inl err) ->
      script.demo_nyu_rest C F data_dir output_dir st
      = (mkState w (calls st), inl err)).
Proof.
  repeat split; intro H;
    [unfold script.demo_spm_auditory | unfold script.demo_spm_multimodal_fmri
    | unfold script.demo_fsl_feeds | unfold script.demo_nyu_rest];
    apply bind_raise; apply run_fetch_eq; exact H.
Qed.

(** X10. When the main block returns, the banners it has printed are, in
    this order: the one of the auditory demo, the one of the multimodal
    demo, the one of the FSL demo, then one per distinct subject of session
    1 of the listing the NYU fetch returned. *)
Theorem main_banners (O : SetOrder) (st st' : state W) :
  script.main C F st = (st', inr tt) ->
  exists nyu_func,
    (exists w w', fetch_nyu_rest F "/tmp/nyu_data" w = (w', inr nyu_func))
    /\ banners (calls st')
       = (banners (calls st)
          ++ [banner "sub001" "SPM single-subject Auditory";
              banner "sub001" "SPM Multimodal fMRI faces vs scrambled";
              banner "sub001" "FSL FEEDS"]
          ++ map (fun id => banner id "NYU resting state")
               (set_iter (demo_nyu_rest.subject_ids nyu_func 1)))%list.
Proof.
  unfold script.main. intro H. unfold bind at 1 in H.
  destruct (script.demo_spm_auditory C F _ _ st) as [st1 [e|[]]] eqn:H1;
    [discriminate H |].
  unfold bind at 1 in H.
  destruct (script.demo_spm_multimodal_fmri C F _ _ st1) as [st2 [e|[]]] eqn:H2;
    [discriminate H |].
  unfold bind at 1 in H.
  destruct (script.demo_fsl_feeds C F _ _ st2) as [st3 [e|[]]] eqn:H3;
    [discriminate H |].
  apply fetch_then_returns in H1, H2, H3, H.
  destruct H1 as (w1 & a1 & _ & R1). destruct H2 as (w2 & a2 & _ & R2).
  destruct H3 as (w3 & a3 & _ & R3). destruct H as (w4 & nyu_func & Hf & R4).
  apply runner_banners in R1, R2, R3, R4. cbn [calls] in *.
  destruct R1 as [_ B1], R2 as [_ B2], R3 as [_ B3], R4 as [E4 B4].
  exists nyu_func. split; [now exists (world st3), w4 |].
  rewrite B4, B3, B2, B1.
  rewrite (factory_exhausted_yielded _ _ _ _ E4), map_map.
  cbn. now rewrite <- !app_assoc.
Qed.

(** X11. The main block stops at the first demo that raises: it ends in the
    state and with the exception of that demo, and the demos after it are
    not started. When the first fetch raises, no call to the engine or to
    the plots is made at all. *)
Theorem main_stops_at_first_failure (O : SetOrder) (st : state W) :
  (forall w err,
     fetch_spm_auditory_data F "/tmp/spm_auditory_data" (world st)
     = (w, inl err) ->
     script.main C F st = (mkState w (calls st), inl err))
  /\ (forall st1 e,
     script.demo_spm_auditory C F "/tmp/spm_auditory_data"
       "/tmp/spm_auditory_output" st = (st1, inl e) ->
     script.main C F st = (st1, inl e))
  /\ (forall st1 st2 e,
        script.demo_spm_auditory C F "/tmp/spm_auditory_data"
          "/tmp/spm_auditory_output" st = (st1, inr tt) ->
        script.demo_spm_multimodal_fmri C F "/tmp/spm_multimodal_fmri"
          "/tmp/spm_multimodal_fmri_output" st1 = (st2, inl e) ->
        script.main C F st = (st2, inl e))
  /\ (forall st1 st2 st3 e,
        script.demo_spm_auditory C F "/tmp/spm_auditory_data"
          "/tmp/spm_auditory_output" st = (st1, inr tt) ->
        script.demo_spm_multimodal_fmri C F "/tmp/spm_multimodal_fmri"
          "/tmp/spm_multimodal_fmri_output" st1 = (st2, inr tt) ->
        script.demo_fsl_feeds C F "/tmp/fsl-feeds-data"
          "/tmp/fsl_feeds_mrimc_output" st2 = (st3, inl e) ->
        script.main C F st = (st3, inl e))
  /\ (forall st1 st2 st3,
        script.demo_spm_auditory C F "/tmp/spm_auditory_data"
          "/tmp/spm_auditory_output" st = (st1, inr tt) ->
        script.demo_spm_multimodal_fmri C F "/tmp/spm_multimodal_fmri"
          "/tmp/spm_multimodal_fmri_output" st1 = (st2, inr tt) ->
        script.demo_fsl_feeds C F "/tmp/fsl-feeds-data"
          "/tmp/fsl_feeds_mrimc_output" st2 = (st3, inr tt) ->
        script.main C F st
        = script.demo_nyu_rest C F "/tmp/nyu_data" "/tmp/nyu_mrimc_output" st3).
Proof.
  unfold script.main. repeat split; intros.
  - apply bind_raise. now apply (demo_fetch_raises O).
  - now apply bind_raise.
  - erewrite bind_ok by eassumption. now apply bind_raise.
  - erewrite bind_ok by eassumption. erewrite bind_ok by eassumption.
    now apply bind_raise.
  - erewrite bind_ok by eassumption. erewrite bind_ok by eassumption.
    erewrite bind_ok by eassumption. reflexivity.
Qed.

End ScriptFacts.

(** ** Witnesses on the calm engine and the sample fetchers *)

Lemma calm_never_raises : never_raises calm.
Proof.
  repeat split; intros.
  - exists w, []. reflexivity.
  - destruct f; eexists; eexists; reflexivity.
  - eexists; eexists; reflexivity.
  - exists (S w). reflexivity.
  - exists w. reflexivity.
Qed.

(** The witness of X9: the calm engine on a sequence that yields one subject
    and then raises. *)
Lemma runner_ends_as_generator_witness :
  never_raises calm
  /\ snd (_demo_runner calm (Yield good_subject (Raises AssertionError))
            "toy" [] start)
     = inl AssertionError
  /\ exists rps : list (list string),
       List.length rps = 1
       /\ calls (fst (_demo_runner calm
                        (Yield good_subject (Raises AssertionError))
                        "toy" [] start))
          = (calls start
             ++ concat (map (fun p => subject_calls "toy" [] (fst p) (snd p))
                          (combine [good_subject] rps)))%list.
Proof.
  split; [exact calm_never_raises |].
  exact (runner_ends_as_generator calm
           (Yield good_subject (Raises AssertionError)) "toy" [] start
           calm_never_raises).
Defined.

(** The witness of X10: the main block on the calm engine. *)
Lemma main_banners_witness :
  @script.main nat (list string) calm toy_fetch last_seen start
  = (main_done, inr tt)
  /\ exists nyu_func,
       (exists w w', fetch_nyu_rest toy_fetch "/tmp/nyu_data" w
                     = (w', inr nyu_func))
       /\ banners (calls main_done)
          = (banners (calls start)
             ++ [banner "sub001" "SPM single-subject Auditory";
                 banner "sub001" "SPM Multimodal fMRI faces vs scrambled";
                 banner "sub001" "FSL FEEDS"]
             ++ map (fun id => banner id "NYU resting state")
                  (@set_iter last_seen
                     (demo_nyu_rest.subject_ids nyu_func 1)))%list.
Proof.
  split; [vm_compute; reflexivity |].
  apply (main_banners calm toy_fetch last_seen start main_done).
  vm_compute. reflexivity.
Defined.

(** The witness of X11: without a network the main block ends at the first
    fetch. *)
Lemma main_stops_at_first_failure_witness :
  fetch_spm_auditory_data offline "/tmp/spm_auditory_data" (world start)
  = (0, inl (Raised "fetch: offline"))
  /\ @script.main nat (list string) calm offline last_seen start
     = (mkState 0 (calls start), inl (Raised "fetch: offline")).
Proof.
  split; [reflexivity |].
  apply (proj1 (main_stops_at_first_failure calm offline last_seen start)).
  reflexivity.
Defined.

(** ** The single-subject demos *)

Section SingleSubjectFacts.
Context {W E : Type}.
Variable C : collaborators W E.

Lemma one_subject_returns (s : SubjectData) (did : string) (kw : kwargs)
    (st st' : state W) :
  _demo_runner C (Yield s Exhausted) did kw st = (st', inr tt) ->
  exists rp, calls st' = (calls st ++ subject_calls did kw s rp)%list.
Proof.
  unfold _demo_runner. cbn [for_gen]. unfold bind. intro H.
  destruct (subject_body C did kw s st) as [st1 [e|[]]] eqn:Hs;
    [discriminate H |].
  inversion H; subst. apply subject_body_returns in Hs.
  destruct Hs as (w1 & w2 & w3 & e0 & e1 & e2 & _ & _ & _ & Hc).
  now exists (mc_rp_filenames C e2).
Qed.

Lemma join_sub001 (out : string) :
  posixpath.join out ["sub001"] = with_sep out ++ "sub001".
Proof.
  unfold posixpath.join. cbn [fold_left].
  now apply join_step_relative.
Qed.

(** X12. A single-subject demo that returns has made the calls of one
    pipeline and no other: one [fit] on the functional data as the demo
    packs it (the auditory path in a one-element list, the FSL data as
    fetched, the two multimodal runs in order), one [transform] into the
    base directory followed by "sub001". Only the multimodal demo passes
    keyword arguments, [n_sessions=2]. *)
Theorem single_subject_runs (auditory_func func1 func2 out : string)
    (fsl_func : func_t) (st st' : state W) :
  (run_spm_auditory C auditory_func out st = (st', inr tt) ->
   exists rp,
     calls st'
     = (calls st
        ++ subject_calls "SPM single-subject Auditory" []
             (mkSubjectData "sub001" (FuncList [auditory_func])
                (with_sep out ++ "sub001")) rp)%list)
  /\ (run_fsl_feeds C fsl_func out st = (st', inr tt) ->
      exists rp,
        calls st'
        = (calls st
           ++ subject_calls "FSL FEEDS" []
                (mkSubjectData "sub001" fsl_func (with_sep out ++ "sub001"))
                rp)%list)
  /\ (run_spm_multimodal_fmri C func1 func2 out st = (st', inr tt) ->
      exists rp,
        calls st'
        = (calls st
           ++ subject_calls "SPM Multimodal fMRI faces vs scrambled"
                [("n_sessions", 2%Z)]
                (mkSubjectData "sub001" (FuncList [func1; func2])
                   (with_sep out ++ "sub001")) rp)%list).
Proof.
  unfold run_spm_auditory, run_fsl_feeds, run_spm_multimodal_fmri,
    demo_spm_auditory.subject_factory, demo_fsl_feeds.subject_factory,
    demo_spm_multimodal_fmri.subject_factory.
  rewrite join_sub001.
  repeat split; intro H; exact (one_subject_returns _ _ _ _ _ H).
Qed.

End SingleSubjectFacts.

(** The witness of X2: the record of "s1" in the dataset's layout. *)
Lemma nyu_record_is_consistent_witness :
  let r := mkSubjectData "s1" (FuncPath "/d/session1/s1/func/f.nii")
             "/out/session1/s1" in
  In r (yielded dataset_subjects)
  /\ exists x,
       func r = FuncPath x
       /\ In x dataset_listing
       /\ Py.str_in (demo_nyu_rest.session_marker 1) x = true
       /\ subject_id r = demo_nyu_rest.subject_of x
       /\ Py.str_in "/" (subject_id r) = false.
Proof.
  intro r.
  assert (H : In r (yielded dataset_subjects)) by (left; reflexivity).
  split; [exact H |].
  exact (nyu_record_is_consistent last_seen dataset_listing "/out" 1%Z r H).
Defined.

(** The witness of X3: the record of "s2" in the dataset's layout. *)
Lemma nyu_output_dir_shape_witness :
  let r := mkSubjectData "s2" (FuncPath "/d/session1/s2/func/f.nii")
             "/out/session1/s2" in
  In r (yielded dataset_subjects)
  /\ output_dir r
     = with_sep "/out" ++ demo_nyu_rest.session_marker 1 ++ "/" ++ subject_id r.
Proof.
  intro r.
  assert (H : In r (yielded dataset_subjects)) by (right; left; reflexivity).
  split; [exact H |].
  exact (nyu_output_dir_shape last_seen dataset_listing "/out" 1%Z r H).
Defined.

(** The witness of X12: the auditory demo on the calm engine. *)
Lemma single_subject_runs_witness :
  run_spm_auditory calm "/data/fM00223.nii" "/out" start
  = (auditory_done, inr tt)
  /\ exists rp,
       calls auditory_done
       = (calls start
          ++ subject_calls "SPM single-subject Auditory" []
               (mkSubjectData "sub001" (FuncList ["/data/fM00223.nii"])
                  (with_sep "/out" ++ "sub001")) rp)%list.
Proof.
  split; [vm_compute; reflexivity |].
  apply (proj1 (single_subject_runs calm "/data/fM00223.nii" "" "" "/out"
                  (FuncPath "") start auditory_done)).
  vm_compute. reflexivity.
Defined.

(** The witness of X7: three parameter files plotted on the calm engine. *)
Lemma plot_loop_numbered_witness :
  let rp := ["/out/rp_run1.txt"; "/out/rp_run2.txt"; "/out/rp_run3.txt"] in
  let st' := mkState 3 (plot_calls "s1" "toy" rp) in
  plot_loop calm "s1" "toy" rp start = (st', inr tt)
  /\ exists plots,
       calls st' = (calls start ++ plots)%list
       /\ List.length plots = List.length rp
       /\ forall k,
            nth_error plots k
            = option_map
                (fun f => Plot_spm_motion_parameters f
                            ("Estimated motion for " ++ "s1"
                               ++ " (session " ++ Py.format_i (Z.of_nat k)
                               ++ ") of '" ++ "toy" ++ "'"))
                (nth_error rp k).
Proof.
  intros rp st'.
  assert (H : plot_loop calm "s1" "toy" rp start = (st', inr tt))
    by (vm_compute; reflexivity).
  split; [exact H |].
  exact (plot_loop_numbered calm "s1" "toy" rp start st' H).
Defined.
